(** * S3 audio transcription and translation app: model and properties

    A shallow embedding of [s3_audio_transcribe.py].  The script is a
    Streamlit page: it lists the audio objects of an S3 bucket, lets the
    user pick one together with a target language, and on a button press
    downloads the object to a temporary file, sends it to the Whisper
    speech-to-text endpoint, optionally sends the transcript to a chat
    model for translation, and offers the texts for download.

    The three remote services, the operating system and the user are
    external: they are modelled as oracles gathered in a [World] record.
    The script itself is written in a small state-and-exception monad
    that threads the file system and the local variable
    [temp_file_path], and records every externally visible action
    (service call, file-system call, Streamlit widget) in a log. *)

From Stdlib Require Import String Ascii ZArith List Lia DecimalString.
From Stdlib Require Import DecimalPos DecimalN.
From stdpp Require Import base option list gmap strings.

Local Open Scope Z_scope.

(** ** Python string operations used by the script

    A [str] is modelled as a Rocq [string], that is as its UTF-8 bytes.
    [lower] folds the ASCII capitals only: it is [str.lower] on strings
    of ASCII characters, which the labels of the language box are, and
    not on others.  For the suffix test of the lister it agrees with
    [str.lower] on every key: every suffix in the tuple is ASCII without
    [i] or [k], the only ASCII letters that a non-ASCII code point can
    lower-case to. *)

Module Py.

Definition is_upper (c : ascii) : bool :=
  (65 <=? Z.of_nat (nat_of_ascii c)) && (Z.of_nat (nat_of_ascii c) <=? 90).

Definition lower_char (c : ascii) : ascii :=
  if is_upper c then ascii_of_nat (nat_of_ascii c + 32) else c.

(** [s.lower()] *)
Fixpoint lower (s : string) : string :=
  match s with
  | EmptyString => EmptyString
  | String c s' => String (lower_char c) (lower s')
  end.

(** [s.endswith(suffix)] for one suffix: some tail of [s] is [suffix]. *)
Fixpoint endswith (s suffix : string) : bool :=
  if String.eqb s suffix then true
  else match s with
       | EmptyString => false
       | String _ s' => endswith s' suffix
       end.

(** [s.endswith(t)] for a tuple [t] of suffixes. *)
Definition endswith_any (s : string) (suffixes : list string) : bool :=
  existsb (endswith s) suffixes.

(** [s.startswith(prefix)] *)
Definition startswith (s prefix : string) : bool := String.prefix prefix s.

(** [s.rfind(c)] for a one-character [c], counting positions from [i]:
    the highest index at which [c] occurs, [-1] when it does not. *)
Fixpoint rfind_from (i : Z) (s : string) (c : ascii) : Z :=
  match s with
  | EmptyString => -1
  | String a s' =>
      let r := rfind_from (i + 1) s' c in
      if 0 <=? r then r else if Ascii.eqb a c then i else -1
  end.

Definition rfind (s : string) (c : ascii) : Z := rfind_from 0 s c.

(** [s[:n]] and [s[n:]] for [0 <= n]. *)
Fixpoint take (n : nat) (s : string) : string :=
  match n, s with
  | S n', String c s' => String c (take n' s')
  | _, _ => EmptyString
  end.

Fixpoint drop (n : nat) (s : string) : string :=
  match n, s with
  | S n', String _ s' => drop n' s'
  | _, _ => s
  end.

(** [s[i:i+1]] for [0 <= i]: the empty string past the end. *)
Definition char_at (s : string) (i : Z) : string :=
  take 1 (drop (Z.to_nat i) s).

(** The loop of [genericpath._splitext] that skips leading dots
    ([while filenameIndex < dotIndex]): [true] when it meets a character
    other than the extension separator, which is where the Python loop
    returns the split.  [n] counts the remaining iterations,
    [dotIndex - filenameIndex]. *)
Fixpoint finds_name_char (n : nat) (p : string) (filenameIndex : Z) : bool :=
  match n with
  | O => false
  | S n' =>
      if negb (String.eqb (char_at p filenameIndex) ".") then true
      else finds_name_char n' p (filenameIndex + 1)
  end.

(** [os.path.splitext(p)] of [posixpath]: [sep] is [/], there is no
    [altsep], [extsep] is the dot. *)
Definition splitext (p : string) : string * string :=
  let sepIndex := rfind p "/" in
  let dotIndex := rfind p "." in
  if (sepIndex <? dotIndex)
     && finds_name_char (Z.to_nat (dotIndex - (sepIndex + 1))) p (sepIndex + 1)
  then (take (Z.to_nat dotIndex) p, drop (Z.to_nat dotIndex) p)
  else (p, EmptyString).

(** [os.path.join(a, b)] of [posixpath] for two components. *)
Definition path_join (a b : string) : string :=
  if startswith b "/" then b
  else if String.eqb a "" || endswith a "/" then (a ++ b)%string
  else (a ++ "/" ++ b)%string.

(** [str(n)] for a non-negative [int]. *)
Definition str_of_N (n : N) : string := NilZero.string_of_uint (N.to_uint n).

(** Truth value of a [str]: the empty string is false. *)
Definition truthy (s : string) : bool := negb (String.eqb s "").

(** [c in s] for a one-character [c]. *)
Fixpoint contains (c : ascii) (s : string) : bool :=
  match s with
  | EmptyString => false
  | String a s' => Ascii.eqb a c || contains c s'
  end.

(** The double quote. *)
Definition dquote : ascii := ascii_of_nat 34.

(** The quote [repr] puts around a [str]: the double quote when the
    string holds a single quote and no double quote, the single quote
    otherwise. *)
Definition repr_quote (s : string) : ascii :=
  if contains "'" s && negb (contains dquote s) then dquote else "'"%char.

Definition hex_digit (n : nat) : ascii :=
  nth n (list_ascii_of_string "0123456789abcdef") "0"%char.

(** The backslash. *)
Definition backslash : ascii := ascii_of_nat 92.

(** What [repr] writes for one character inside the quotes: the quote
    and the backslash are escaped, tab, line feed and carriage return
    are written with their letter, the other control characters in
    hexadecimal. *)
Definition repr_char (quote c : ascii) : string :=
  let n := nat_of_ascii c in
  if Ascii.eqb c quote || Ascii.eqb c backslash
  then String backslash (String c "")
  else if Nat.eqb n 9 then String backslash "t"
  else if Nat.eqb n 10 then String backslash "n"
  else if Nat.eqb n 13 then String backslash "r"
  else if Nat.ltb n 32 || Nat.eqb n 127
       then String backslash
              (String "x"
                 (String (hex_digit (n / 16))
                    (String (hex_digit (n mod 16)) "")))
  else String c "".

Fixpoint repr_body (quote : ascii) (s : string) : string :=
  match s with
  | EmptyString => EmptyString
  | String c s' => (repr_char quote c ++ repr_body quote s')%string
  end.

(** [repr(s)] for a [str] of ASCII characters.  The bytes of other
    characters are left as they are, which is what Python does for the
    printable ones; for the others [repr] depends on the Unicode
    tables, so the script takes [repr] from the world (see [py_repr])
    and this function only serves in the sample worlds. *)
Definition repr_ascii (s : string) : string :=
  let quote := repr_quote s in
  String quote (repr_body quote s ++ String quote "")%string.

End Py.

(** ** Values exchanged with the outside *)

Definition bytes := list Byte.byte.

(** A raised exception: the name of its class, the text [str(e)] gives,
    and whether the class derives from [Exception], which is what an
    [except Exception] clause tests; [KeyboardInterrupt], [SystemExit]
    and [GeneratorExit] do not. *)
Record exn := Exn {
  exn_type : string;
  exn_str : string;
  is_Exception : bool
}.

(** One object entry of a [list_objects_v2] response. *)
Record s3_object := S3Object { Key : string; Size : Z }.

(** The response dictionary of [list_objects_v2]: the ['Contents'] entry
    is absent when the listing has no object. *)
Record list_response := ListResponse { Contents : option (list s3_object) }.

(** One chat message, [{"role": ..., "content": ...}]. *)
Record message := Message { role : string; content : string }.

(** What [s3_client.download_file] did: it wrote the object to the
    destination, or it raised, having left the destination alone
    ([None]) or holding some partial data. *)
Inductive download_outcome :=
| Downloaded (data : bytes)
| DownloadFailed (e : exn) (partial : option bytes).

(** The seven entries of the language selection box, in the order of
    the [languages] dictionary. *)
Inductive LanguageChoice :=
| Original | Hindi | Marathi | Japanese | Spanish | French | German.

(** What the user does in one run of the script: the index chosen in the
    file selection box, the entry chosen in the language box, and
    whether the button was pressed. *)
Record UserInput := {
  file_index : nat;
  language : LanguageChoice;
  button_pressed : bool
}.

(** The environment of one run of the script. *)
Record World := {
  (** [os.getenv('S3_BUCKET_NAME')] *)
  bucket_name : option string;
  (** [tempfile.gettempdir()], in an environment that has a temporary
      directory *)
  tempdir : string;
  (** [os.getpid()] *)
  pid : N;
  (** [repr(s)] for a [str], as the interpreter computes it *)
  py_repr : string -> string;
  (** [s3_client.list_objects_v2(Bucket=...)] *)
  list_objects_v2 : option string -> exn + list_response;
  (** [s3_client.download_file(bucket, key, path)] *)
  download_file : option string -> string -> string -> download_outcome;
  (** [openai.Audio.transcribe] on the bytes of the audio file *)
  audio_transcribe : bytes -> exn + string;
  (** [openai.ChatCompletion.create]: the contents of the choices *)
  chat_completion : list message -> exn + list string;
  (** [os.open(path, os.O_RDONLY)]: the error it raises, if any *)
  os_open_error : string -> option exn;
  (** [os.remove(path)]: the error it raises, if any *)
  os_remove_error : string -> option exn
}.

(** Everything the script does that can be seen from outside, in the
    order in which it happens. *)
Inductive event :=
| EvListObjects (bucket : option string)
| EvDownloadFile (bucket : option string) (key path : string)
| EvOpenRead (path : string)
| EvAudioTranscribe (audio : bytes) (model response_format : string)
| EvChatCompletion (model : string) (messages : list message)
| EvPathExists (path : string) (found : bool)
| EvOsOpen (path : string)
| EvOsClose (path : string)
| EvOsRemove (path : string)
| UiTitle (body : string)
| UiSidebarHeader (body : string)
| UiSidebarSelectbox (label : string) (options : list string)
| UiSidebarExpander (label body : string)
| UiSidebarMarkdown (body : string)
| UiWrite (body : string)
| UiButton (label : string)
| UiSpinnerEnter (text : string)
| UiSpinnerExit
| UiSuccess (body : string)
| UiMarkdown (body : string)
| UiColumns (n : nat)
| UiDownloadButton (label data file_name mime : string)
| UiError (body : string)
| UiWarning (body : string).

(** ** The monad of the script *)

(** The mutable state: the local files and the variable
    [temp_file_path] of the button handler. *)
Record state := State {
  fs : gmap string bytes;
  temp_file_path : option string
}.

(** The result of running a piece of the script: the state it leaves,
    the events it produced, and the value it returned ([inr]) or the
    exception it raised ([inl]). *)
Record run (A : Type) := Run {
  run_st : state;
  run_log : list event;
  run_val : exn + A
}.
Arguments Run {A} _ _ _.
Arguments run_st {A} _.
Arguments run_log {A} _.
Arguments run_val {A} _.

Definition M (A : Type) : Type := state -> run A.

Definition ret {A} (a : A) : M A := fun st => Run st [] (inr a).

Definition raise {A} (e : exn) : M A := fun st => Run st [] (inl e).

Definition bind {A B} (m : M A) (k : A -> M B) : M B :=
  fun st =>
    match m st with
    | Run st1 log1 (inl e) => Run st1 log1 (inl e)
    | Run st1 log1 (inr a) =>
        match k a st1 with
        | Run st2 log2 v => Run st2 (log1 ++ log2) v
        end
    end.

Declare Scope py_scope.
Delimit Scope py_scope with py.
Notation "x <- m ;; k" := (bind m (fun x => k))
  (at level 100, m at next level, right associativity) : py_scope.
Notation "m ;; k" := (bind m (fun _ => k))
  (at level 100, right associativity) : py_scope.
Local Open Scope py_scope.

Definition emit (e : event) : M unit := fun st => Run st [e] (inr tt).

Definition get_fs : M (gmap string bytes) := fun st => Run st [] (inr (fs st)).

Definition put_fs (f : gmap string bytes) : M unit :=
  fun st => Run (State f (temp_file_path st)) [] (inr tt).

Definition get_temp_file_path : M (option string) :=
  fun st => Run st [] (inr (temp_file_path st)).

Definition set_temp_file_path (p : option string) : M unit :=
  fun st => Run (State (fs st) p) [] (inr tt).

(** [try: body / except Exception as e: handler(e)]: the handler runs
    for an exception whose class derives from [Exception]; any other
    exception goes through. *)
Definition try_except {A} (body : M A) (handler : exn -> M A) : M A :=
  fun st =>
    match body st with
    | Run st1 log1 (inl e) =>
        if is_Exception e then
          match handler e st1 with
          | Run st2 log2 v => Run st2 (log1 ++ log2) v
          end
        else Run st1 log1 (inl e)
    | Run st1 log1 (inr a) => Run st1 log1 (inr a)
    end.

(** [try: body / finally: final]: [final] runs whatever [body] did; an
    exception of [final] replaces the outcome of [body]. *)
Definition try_finally {A} (body : M A) (final : M unit) : M A :=
  fun st =>
    match body st with
    | Run st1 log1 v1 =>
        match final st1 with
        | Run st2 log2 (inl e) => Run st2 (log1 ++ log2) (inl e)
        | Run st2 log2 (inr _) => Run st2 (log1 ++ log2) v1
        end
    end.

(** [with st.spinner(text): body]: the spinner is taken down when the
    block is left, normally or by an exception. *)
Definition with_spinner {A} (text : string) (body : M A) : M A :=
  emit (UiSpinnerEnter text) ;; try_finally body (emit UiSpinnerExit).

(** ** The script *)

Local Open Scope string_scope.

(** The line feed, [\n] in the Python literals. *)
Definition nl : string := String (ascii_of_nat 10) EmptyString.

(** Lifts the answer of a service to the monad. *)
Definition call {A} (answer : exn + A) : M A :=
  match answer with
  | inl e => raise e
  | inr a => ret a
  end.

(** The tuple of suffixes tested by [list_s3_audio_files]. *)
Definition audio_suffixes : list string :=
  [".mp3"; ".mp4"; ".mpeg"; ".mpga"; ".m4a"; ".wav"; ".webm"].

(** The condition of the [if] in the loop of [list_s3_audio_files]. *)
Definition is_audio_key (key : string) : bool :=
  Py.endswith_any (Py.lower key) audio_suffixes.

(** The [for] loop of [list_s3_audio_files], started with the list
    [audio_files] built so far: each matching key is appended. *)
Fixpoint collect_audio (objs : list s3_object) (audio_files : list string)
  : list string :=
  match objs with
  | [] => audio_files
  | obj :: rest =>
      collect_audio rest
        (if is_audio_key (Key obj) then audio_files ++ [Key obj]
         else audio_files)
  end.

(** [response.get('Contents', [])] *)
Definition get_Contents (response : list_response) (dflt : list s3_object)
  : list s3_object :=
  match Contents response with
  | Some objs => objs
  | None => dflt
  end.

(** The [languages] dictionary, in insertion order. *)
Definition languages : list (string * option string) :=
  [("Original (No Translation)", None);
   ("Hindi", Some "Hindi");
   ("Marathi", Some "Marathi");
   ("Japanese", Some "Japanese");
   ("Spanish", Some "Spanish");
   ("French", Some "French");
   ("German", Some "German")].

(** [list(languages.keys())] *)
Definition language_options : list string := map fst languages.

(** The position of a choice in the language selection box. *)
Definition choice_index (c : LanguageChoice) : nat :=
  match c with
  | Original => 0 | Hindi => 1 | Marathi => 2 | Japanese => 3
  | Spanish => 4 | French => 5 | German => 6
  end%nat.

(** What the language selection box returns for a choice: the option at
    its position. *)
Definition selected_language (c : LanguageChoice) : string :=
  nth (choice_index c) language_options "".

(** [d[k]] on a dictionary with string keys: [None] when the key is
    missing. *)
Fixpoint dict_lookup {V} (d : list (string * V)) (k : string) : option V :=
  match d with
  | [] => None
  | (k', v) :: rest => if String.eqb k' k then Some v else dict_lookup rest k
  end.

(** The name of the temporary file for a key: line 89 of the script. *)
Definition temp_file_name (process : N) (selected_file : string) : string :=
  "temp_audio_" ++ Py.str_of_N process ++ snd (Py.splitext selected_file).

(** The prompt built by [translate_text], line 49. *)
Definition translation_prompt (text target_language : string) : string :=
  "Translate the following English text to " ++ target_language ++ ":"
    ++ nl ++ nl ++ text.

(** The [messages] argument of the chat request, lines 53 to 56. *)
Definition translate_messages (text target_language : string)
  : list message :=
  [Message "system" "You are a professional translator.";
   Message "user" (translation_prompt text target_language)].

Section Script.

Context (w : World).

(** [d[k]], raising [KeyError] when the key is missing; [str] of a
    [KeyError] is the [repr] of the key. *)
Definition getitem {V} (d : list (string * V)) (k : string) : M V :=
  match dict_lookup d k with
  | Some v => ret v
  | None => raise (Exn "KeyError" (py_repr w k) true)
  end.

(** [list_s3_audio_files()] *)
Definition list_s3_audio_files : M (list string) :=
  emit (EvListObjects (bucket_name w)) ;;
  response <- call (list_objects_v2 w (bucket_name w)) ;;
  ret (collect_audio (get_Contents response []) []).

(** [open(file_path, "rb")] followed by reading the whole file. *)
Definition open_rb (file_path : string) : M bytes :=
  emit (EvOpenRead file_path) ;;
  files <- get_fs ;;
  match files !! file_path with
  | Some data => ret data
  | None =>
      raise (Exn "FileNotFoundError"
               ("[Errno 2] No such file or directory: " ++ py_repr w file_path)
               true)
  end.

(** [transcribe_audio(file_path)] *)
Definition transcribe_audio (file_path : string) : M string :=
  audio_file <- open_rb file_path ;;
  emit (EvAudioTranscribe audio_file "whisper-1" "text") ;;
  transcript <- call (audio_transcribe w audio_file) ;;
  ret transcript.

(** [translate_text(text, target_language)] *)
Definition translate_text (text target_language : string) : M string :=
  let messages := translate_messages text target_language in
  emit (EvChatCompletion "gpt-3.5-turbo" messages) ;;
  choices <- call (chat_completion w messages) ;;
  match choices with
  | first :: _ => ret first
  | [] => raise (Exn "IndexError" "list index out of range" true)
  end.

(** [s3_client.download_file(bucket_name, key, path)] *)
Definition s3_download_file (key path : string) : M unit :=
  emit (EvDownloadFile (bucket_name w) key path) ;;
  match download_file w (bucket_name w) key path with
  | Downloaded data =>
      files <- get_fs ;; put_fs (<[path := data]> files)
  | DownloadFailed e partial =>
      match partial with
      | Some data => files <- get_fs ;; put_fs (<[path := data]> files)
      | None => ret tt
      end ;;
      raise e
  end.

(** [os.path.exists(path)] *)
Definition os_path_exists (path : string) : M bool :=
  files <- get_fs ;;
  let found := match files !! path with Some _ => true | None => false end in
  emit (EvPathExists path found) ;;
  ret found.

(** [os.close(os.open(path, os.O_RDONLY))] *)
Definition os_open_close (path : string) : M unit :=
  emit (EvOsOpen path) ;;
  match os_open_error w path with
  | Some e => raise e
  | None => emit (EvOsClose path)
  end.

(** [os.remove(path)] *)
Definition os_remove (path : string) : M unit :=
  emit (EvOsRemove path) ;;
  match os_remove_error w path with
  | Some e => raise e
  | None => files <- get_fs ;; put_fs (delete path files)
  end.

(** The translation branch, lines 104 to 124; [name] is the value of
    [languages[target_language]]. *)
Definition translate_and_offer
    (selected_file target_language transcript name : string) : M unit :=
  with_spinner ("Translating to " ++ target_language ++ "...") (
    translated_text <- translate_text transcript name ;;
    emit (UiMarkdown ("### " ++ target_language ++ " Translation:")) ;;
    emit (UiWrite translated_text) ;;
    emit (UiColumns 2) ;;
    emit (UiDownloadButton "Download Original Transcript" transcript
            (selected_file ++ "_transcript_original.txt") "text/plain") ;;
    emit (UiDownloadButton
            ("Download " ++ target_language ++ " Translation")
            translated_text
            (selected_file ++ "_transcript_" ++ Py.lower target_language
               ++ ".txt")
            "text/plain")).

(** The [else] branch, lines 126 to 132. *)
Definition offer_transcript (selected_file transcript : string) : M unit :=
  emit (UiDownloadButton "Download Transcript" transcript
          (selected_file ++ "_transcript.txt") "text/plain").

(** The value given to [temp_file_path] on line 89. *)
Definition temp_path (selected_file : string) : string :=
  Py.path_join (tempdir w) (temp_file_name (pid w) selected_file).

(** The body of the [try] block, lines 88 to 132.  The test of line 103
    is the truth value of the dictionary entry: [None] and the empty
    string take the [else] branch. *)
Definition stages (selected_file target_language : string) : M unit :=
  let path := temp_path selected_file in
  set_temp_file_path (Some path) ;;
  s3_download_file selected_file path ;;
  transcript <- transcribe_audio path ;;
  emit (UiSuccess "Transcription completed!") ;;
  emit (UiMarkdown "### Original Transcript:") ;;
  emit (UiWrite transcript) ;;
  entry <- getitem languages target_language ;;
  match entry with
  | Some name =>
      if Py.truthy name
      then translate_and_offer selected_file target_language transcript name
      else offer_transcript selected_file transcript
  | None => offer_transcript selected_file transcript
  end.

(** The [except Exception as e] handler, line 135. *)
Definition report_error (e : exn) : M unit :=
  emit (UiError ("An error occurred: " ++ exn_str e)).

(** The [finally] block, lines 138 to 144. *)
Definition cleanup : M unit :=
  path <- get_temp_file_path ;;
  match path with
  | Some path =>
      if Py.truthy path then
        found <- os_path_exists path ;;
        if found then
          try_except
            (os_open_close path ;; os_remove path)
            (fun e =>
               emit (UiWarning
                       ("Could not remove temporary file: " ++ exn_str e)))
        else ret tt
      else ret tt
  | None => ret tt
  end.

(** The handler of the button, lines 85 to 144. *)
Definition pipeline (selected_file target_language : string) : M unit :=
  with_spinner "Downloading and transcribing audio..." (
    set_temp_file_path None ;;
    try_finally
      (try_except (stages selected_file target_language) report_error)
      cleanup).

(** The whole script, run once per interaction.  The file selection
    box returns the option at the chosen index, and [None] when there is
    none. *)
Definition script (u : UserInput) : M unit :=
  emit (UiTitle "🎙️ S3 Audio Transcription & Translation App") ;;
  emit (UiSidebarHeader "Select Audio File") ;;
  audio_files <- list_s3_audio_files ;;
  emit (UiSidebarSelectbox "Choose an audio file" audio_files) ;;
  let selected_file := audio_files !! file_index u in
  emit (UiSidebarSelectbox "Select Translation Language" language_options) ;;
  let target_language := selected_language (language u) in
  match selected_file with
  | Some selected_file =>
      if Py.truthy selected_file then
        emit (UiWrite ("Selected file: **" ++ selected_file ++ "**")) ;;
        emit (UiButton "Transcribe & Translate Audio") ;;
        if button_pressed u
        then pipeline selected_file target_language
        else ret tt
      else ret tt
  | None => ret tt
  end ;;
  emit (UiSidebarExpander "ℹ️ How to use" "
    1. Select an audio file from the dropdown menu
    2. Choose your desired translation language
    3. Click the 'Transcribe & Translate Audio' button
    4. Wait for the transcription and translation to complete
    5. View and download the results
    ") ;;
  emit (UiSidebarMarkdown "---") ;;
  emit (UiSidebarMarkdown
          "Made with ❤️ using OpenAI Whisper By Krishnat ❤️❤️❤️").

End Script.

(** ** Observations on a log *)

(** The requests sent to the chat-completion service. *)
Definition translator_calls (log : list event)
  : list (string * list message) :=
  flat_map (fun e => match e with
                     | EvChatCompletion model messages => [(model, messages)]
                     | _ => []
                     end) log.

(** The download buttons on the page: file name and content. *)
Definition download_offers (log : list event) : list (string * string) :=
  flat_map (fun e => match e with
                     | UiDownloadButton _ data file_name _ =>
                         [(file_name, data)]
                     | _ => []
                     end) log.

(** The texts shown with [st.write]: transcript and translation. *)
Definition displayed (log : list event) : list string :=
  flat_map (fun e => match e with UiWrite body => [body] | _ => [] end) log.

(** The messages shown with [st.error]. *)
Definition error_messages (log : list event) : list string :=
  flat_map (fun e => match e with UiError body => [body] | _ => [] end) log.

(** The messages shown with [st.warning]. *)
Definition warnings (log : list event) : list string :=
  flat_map (fun e => match e with UiWarning body => [body] | _ => [] end) log.

(** The local paths an event reads, writes or tests. *)
Definition event_paths (e : event) : list string :=
  match e with
  | EvDownloadFile _ _ path | EvOpenRead path | EvPathExists path _
  | EvOsOpen path | EvOsClose path | EvOsRemove path => [path]
  | _ => []
  end.

(** The events of the [finally] block. *)
Definition is_cleanup_event (e : event) : bool :=
  match e with
  | EvPathExists _ _ | EvOsOpen _ | EvOsClose _ | EvOsRemove _
  | UiWarning _ => true
  | _ => false
  end.

(** The download offers that carry the original transcript of a key. *)
Definition original_offers (key : string) (log : list event)
  : list (string * string) :=
  List.filter
    (fun o => String.eqb (fst o) (key ++ "_transcript_original.txt")
              || String.eqb (fst o) (key ++ "_transcript.txt"))
    (download_offers log).

(** No transcript or translation on the page, and nothing to download. *)
Definition no_results_available (log : list event) : Prop :=
  displayed log = [] /\ download_offers log = [].

(** [c] does not occur in [s]. *)
Fixpoint lacks (c : ascii) (s : string) : bool :=
  match s with
  | EmptyString => true
  | String a s' => negb (Ascii.eqb a c) && lacks c s'
  end.

(** An exception raised by one of the services the pipeline calls for
    a key and a language label: by the download, by the transcription
    of the downloaded bytes, or by the chat request for the transcript
    when the label names a language. *)
Inductive service_raises (w : World) (key target_language : string)
  : exn -> Prop :=
| download_raises e partial :
    download_file w (bucket_name w) key (temp_path w key)
      = DownloadFailed e partial ->
    service_raises w key target_language e
| transcription_raises data e :
    download_file w (bucket_name w) key (temp_path w key) = Downloaded data ->
    audio_transcribe w data = inl e ->
    service_raises w key target_language e
| translation_raises data transcript name e :
    download_file w (bucket_name w) key (temp_path w key) = Downloaded data ->
    audio_transcribe w data = inr transcript ->
    dict_lookup languages target_language = Some (Some name) ->
    chat_completion w (translate_messages transcript name) = inl e ->
    service_raises w key target_language e.

(** A run that caught [e]: it ends normally and shows exactly one error
    message, which carries [str(e)]. *)
Definition caught_and_reported {A} (r : run A) (e : exn) : Prop :=
  (exists a, run_val r = inr a)
  /\ error_messages (run_log r) = ["An error occurred: " ++ exn_str e].

(** ** Sample worlds *)

Definition no_files : state := State ∅ None.

Definition sample_audio : bytes := [Byte.x52; Byte.x49; Byte.x46; Byte.x46].

Definition sample_listing : list_response :=
  ListResponse (Some [S3Object "a.wav" 10; S3Object "b.txt" 20;
                      S3Object "c.mp3" 30]).

(** Every service answers: the transcript is [Bonjour], the translation
    [Hello]. *)
Definition world_ok : World := {|
  bucket_name := Some "recordings";
  tempdir := "/tmp";
  pid := 4242;
  py_repr := Py.repr_ascii;
  list_objects_v2 := fun _ => inr sample_listing;
  download_file := fun _ _ _ => Downloaded sample_audio;
  audio_transcribe := fun _ => inr "Bonjour";
  chat_completion := fun _ => inr ["Hello"];
  os_open_error := fun _ => None;
  os_remove_error := fun _ => None
|}.

Definition not_found : exn :=
  Exn "ClientError"
    "An error occurred (404) when calling the HeadObject operation: Not Found"
    true.

Definition rate_limit : exn :=
  Exn "RateLimitError" "Rate limit reached" true.

Definition timed_out : exn :=
  Exn "EndpointConnectionError" "Connect timeout" true.

Definition busy : exn :=
  Exn "PermissionError" "[WinError 32] The file is in use" true.

(** Two exceptions whose classes do not derive from [Exception]. *)
Definition interrupt : exn := Exn "KeyboardInterrupt" "" false.


(** The download raises and leaves no file. *)
Definition world_download_fails : World := {|
  bucket_name := Some "recordings";
  tempdir := "/tmp";
  pid := 4242;
  py_repr := Py.repr_ascii;
  list_objects_v2 := fun _ => inr sample_listing;
  download_file := fun _ _ _ => DownloadFailed not_found None;
  audio_transcribe := fun _ => inr "Bonjour";
  chat_completion := fun _ => inr ["Hello"];
  os_open_error := fun _ => None;
  os_remove_error := fun _ => None
|}.

(** The transcription succeeds, the chat request raises. *)
Definition world_translate_fails : World := {|
  bucket_name := Some "recordings";
  tempdir := "/tmp";
  pid := 4242;
  py_repr := Py.repr_ascii;
  list_objects_v2 := fun _ => inr sample_listing;
  download_file := fun _ _ _ => Downloaded sample_audio;
  audio_transcribe := fun _ => inr "Bonjour";
  chat_completion := fun _ => inl rate_limit;
  os_open_error := fun _ => None;
  os_remove_error := fun _ => None
|}.

(** The listing raises. *)
Definition world_list_fails : World := {|
  bucket_name := Some "recordings";
  tempdir := "/tmp";
  pid := 4242;
  py_repr := Py.repr_ascii;
  list_objects_v2 := fun _ => inl timed_out;
  download_file := fun _ _ _ => Downloaded sample_audio;
  audio_transcribe := fun _ => inr "Bonjour";
  chat_completion := fun _ => inr ["Hello"];
  os_open_error := fun _ => None;
  os_remove_error := fun _ => None
|}.

(** The bucket is empty: the response has no ['Contents']. *)
Definition world_empty_bucket : World := {|
  bucket_name := Some "recordings";
  tempdir := "/tmp";
  pid := 4242;
  py_repr := Py.repr_ascii;
  list_objects_v2 := fun _ => inr (ListResponse None);
  download_file := fun _ _ _ => Downloaded sample_audio;
  audio_transcribe := fun _ => inr "Bonjour";
  chat_completion := fun _ => inr ["Hello"];
  os_open_error := fun _ => None;
  os_remove_error := fun _ => None
|}.

(** Everything answers, but the temporary file cannot be removed. *)
Definition world_remove_fails : World := {|
  bucket_name := Some "recordings";
  tempdir := "/tmp";
  pid := 4242;
  py_repr := Py.repr_ascii;
  list_objects_v2 := fun _ => inr sample_listing;
  download_file := fun _ _ _ => Downloaded sample_audio;
  audio_transcribe := fun _ => inr "Bonjour";
  chat_completion := fun _ => inr ["Hello"];
  os_open_error := fun _ => None;
  os_remove_error := fun _ => Some busy
|}.

Definition press (i : nat) (c : LanguageChoice) : UserInput :=
  {| file_index := i; language := c; button_pressed := true |}.

(** ** Further observations on a log *)

(** The download requests: bucket, key and destination. *)
Definition download_calls (log : list event)
  : list (option string * string * string) :=
  flat_map (fun e => match e with
                     | EvDownloadFile bucket key path => [(bucket, key, path)]
                     | _ => []
                     end) log.

(** The transcription requests: audio bytes, model and format. *)
Definition transcription_calls (log : list event)
  : list (bytes * string * string) :=
  flat_map (fun e => match e with
                     | EvAudioTranscribe audio model response_format =>
                         [(audio, model, response_format)]
                     | _ => []
                     end) log.

(** The calls to the three remote services. *)
Definition is_remote_call (e : event) : bool :=
  match e with
  | EvListObjects _ | EvDownloadFile _ _ _ | EvAudioTranscribe _ _ _
  | EvChatCompletion _ _ => true
  | _ => false
  end.

Definition remote_calls (log : list event) : list event :=
  List.filter is_remote_call log.

(** The paths given to [os.remove]. *)
Definition removals (log : list event) : list string :=
  flat_map (fun e => match e with EvOsRemove path => [path] | _ => [] end)
    log.

(** The number of spinners still shown after a log, [depth] of them
    being shown before it; [None] when a spinner that is not shown is
    taken down. *)
Fixpoint spinner_depth (log : list event) (depth : nat) : option nat :=
  match log with
  | [] => Some depth
  | UiSpinnerEnter _ :: rest => spinner_depth rest (S depth)
  | UiSpinnerExit :: rest =>
      match depth with
      | O => None
      | S depth' => spinner_depth rest depth'
      end
  | _ :: rest => spinner_depth rest depth
  end.

(** The answer of the chat service carries no choice. *)
Definition no_choice : exn :=
  Exn "IndexError" "list index out of range" true.

(** A file of an earlier run is still at the temporary path. *)
Definition stale_file : state :=
  State {["/tmp/temp_audio_4242.mp3" := sample_audio]} None.

(** The chat service answers without any choice. *)
Definition world_no_choice : World := {|
  bucket_name := Some "recordings";
  tempdir := "/tmp";
  pid := 4242;
  py_repr := Py.repr_ascii;
  list_objects_v2 := fun _ => inr sample_listing;
  download_file := fun _ _ _ => Downloaded sample_audio;
  audio_transcribe := fun _ => inr "Bonjour";
  chat_completion := fun _ => inr [];
  os_open_error := fun _ => None;
  os_remove_error := fun _ => None
|}.

Definition idle (i : nat) (c : LanguageChoice) : UserInput :=
  {| file_index := i; language := c; button_pressed := false |}.



(** The transcription is interrupted from the keyboard. *)
Definition world_interrupted : World := {|
  bucket_name := Some "recordings";
  tempdir := "/tmp";
  pid := 4242;
  py_repr := Py.repr_ascii;
  list_objects_v2 := fun _ => inr sample_listing;
  download_file := fun _ _ _ => Downloaded sample_audio;
  audio_transcribe := fun _ => inl interrupt;
  chat_completion := fun _ => inr ["Hello"];
  os_open_error := fun _ => None;
  os_remove_error := fun _ => None
|}.

(** ** Tactics for running the script symbolically *)

(** Unfolds the script and the monad, and nothing else. *)
Ltac run_script :=
  cbv [script list_s3_audio_files pipeline with_spinner try_finally
       try_except stages cleanup report_error s3_download_file
       transcribe_audio open_rb translate_text translate_and_offer
       offer_transcript os_path_exists os_open_close os_remove getitem call
       bind ret raise emit get_fs put_fs get_temp_file_path
       set_temp_file_path run_st run_log run_val fs temp_file_path app].

(** Case analysis on the next answer of the outside world. *)
Ltac oracle :=
  match goal with
  | |- context [is_Exception (Exn ?t ?m ?b)] =>
      change (is_Exception (Exn t m b)) with b
  | H : ?x = _ |- context [match ?x with _ => _ end] => rewrite H
  | |- context [match list_objects_v2 ?w ?b with _ => _ end] =>
      destruct (list_objects_v2 w b) as [?e | ?response] eqn:?
  | |- context [match download_file ?w ?b ?k ?p with _ => _ end] =>
      destruct (download_file w b k p) as [?data | ?e [?partial|]] eqn:?
  | |- context [match audio_transcribe ?w ?d with _ => _ end] =>
      destruct (audio_transcribe w d) as [?e | ?transcript] eqn:?
  | |- context [match chat_completion ?w ?m with _ => _ end] =>
      destruct (chat_completion w m) as [?e | [|?translation ?choices]] eqn:?
  | |- context [match os_open_error ?w ?p with _ => _ end] =>
      destruct (os_open_error w p) as [?e|] eqn:?
  | |- context [match os_remove_error ?w ?p with _ => _ end] =>
      destruct (os_remove_error w p) as [?e|] eqn:?
  | |- context [match dict_lookup languages ?k with _ => _ end] =>
      destruct (dict_lookup languages k) as [[?name|]|] eqn:?
  | |- context [if Py.truthy ?n then _ else _] =>
      destruct (Py.truthy n) eqn:?
  | |- context [if is_Exception ?e then _ else _] =>
      destruct (is_Exception e) eqn:?
  | |- context [<[?p:=?d]> ?m !! ?p] => rewrite (lookup_insert_eq m p d)
  | |- context [match ?m !! ?p with _ => _ end] =>
      destruct (m !! p) as [?old|] eqn:?
  end.

Ltac exec := run_script; repeat (oracle; run_script).

(** Closes the goals left at the end of a symbolic run. *)
Ltac finish :=
  repeat match goal with
         | |- _ /\ _ => split
         | |- forall _, _ => intro
         end;
  simplify_eq;
  try done;
  try (repeat constructor; done);
  try (eexists; reflexivity);
  try (by simplify_map_eq).

(** Unfolds the script down to the pipeline, which stays folded. *)
Ltac run_page :=
  cbv [script list_s3_audio_files call bind ret raise emit run_st run_log
       run_val app].

(** ** Strings *)

Section Strings.

Implicit Types (s t u : string) (c : ascii).

Lemma append_cons c s t : String c s ++ t = String c (s ++ t).
Proof. reflexivity. Qed.

Lemma append_nil_l s : "" ++ s = s.
Proof. reflexivity. Qed.

Lemma append_nil_r s : s ++ "" = s.
Proof. induction s as [|c s IH]; [done|]. by rewrite append_cons, IH. Qed.

Lemma append_assoc s t u : (s ++ t) ++ u = s ++ t ++ u.
Proof.
  induction s as [|c s IH]; [done|]. by rewrite !append_cons, IH.
Qed.

Lemma length_append s t :
  String.length (s ++ t) = (String.length s + String.length t)%nat.
Proof.
  induction s as [|c s IH]; [done|]. rewrite append_cons. simpl. by rewrite IH.
Qed.

Lemma take_append s t : Py.take (String.length s) (s ++ t) = s.
Proof.
  induction s as [|c s IH]; [by destruct t|].
  rewrite append_cons. simpl. by rewrite IH.
Qed.

Lemma drop_append s t : Py.drop (String.length s) (s ++ t) = t.
Proof.
  induction s as [|c s IH]; [by destruct t|]. rewrite append_cons. by simpl.
Qed.

Lemma char_at_append s c t :
  Py.char_at (s ++ String c t) (Z.of_nat (String.length s)) = String c "".
Proof. unfold Py.char_at. by rewrite Nat2Z.id, drop_append. Qed.

Lemma endswith_unfold s t :
  Py.endswith s t
  = if String.eqb s t then true
    else match s with
         | EmptyString => false
         | String _ s' => Py.endswith s' t
         end.
Proof. by destruct s. Qed.

(** [endswith] is the suffix relation. *)
Lemma endswith_spec s t :
  Py.endswith s t = true <-> exists stem, s = stem ++ t.
Proof.
  split.
  - induction s as [|c s IH]; rewrite endswith_unfold.
    + destruct (String.eqb_spec "" t) as [<-|]; [|done]. by exists "".
    + destruct (String.eqb_spec (String c s) t) as [<-|]; [by exists ""|].
      intros [stem ->]%IH. by exists (String c stem).
  - intros [stem ->].
    induction stem as [|c stem IH].
    + rewrite append_nil_l, endswith_unfold. by rewrite String.eqb_refl.
    + rewrite append_cons, endswith_unfold, IH. by case_match.
Qed.

Lemma endswith_any_spec s (l : list string) :
  Py.endswith_any s l = true <-> exists stem t, In t l /\ s = stem ++ t.
Proof.
  unfold Py.endswith_any. rewrite existsb_exists. split.
  - intros (t & Hin & [stem ->]%endswith_spec). eauto.
  - intros (stem & t & Hin & ->). exists t. split; [done|].
    apply endswith_spec. eauto.
Qed.

Lemma lacks_append c s t : lacks c (s ++ t) = lacks c s && lacks c t.
Proof.
  induction s as [|a s IH]; [done|].
  rewrite append_cons. simpl. by rewrite IH, andb_assoc.
Qed.

Lemma rfind_from_lacks i s c : lacks c s = true -> Py.rfind_from i s c = -1.
Proof.
  revert i. induction s as [|a s IH]; intros i; simpl; [done|].
  intros [Ha Hs]%andb_prop. rewrite (IH _ Hs). simpl.
  by destruct (Ascii.eqb a c).
Qed.

Lemma rfind_from_bounds i s c :
  0 <= i ->
  Py.rfind_from i s c = -1
  \/ i <= Py.rfind_from i s c < i + Z.of_nat (String.length s).
Proof.
  revert i. induction s as [|a s IH]; intros i Hi; simpl String.length;
    [by left|].
  simpl. destruct (IH (i + 1) ltac:(lia)) as [-> | Hr].
  - simpl. destruct (Ascii.eqb a c); [right; lia | by left].
  - destruct (Z.leb_spec 0 (Py.rfind_from (i + 1) s c)); right; lia.
Qed.

Lemma rfind_from_append_lacks i s t c :
  lacks c t = true -> Py.rfind_from i (s ++ t) c = Py.rfind_from i s c.
Proof.
  intros Ht. revert i. induction s as [|a s IH]; intros i.
  - rewrite append_nil_l. by rewrite rfind_from_lacks.
  - rewrite append_cons. simpl. by rewrite IH.
Qed.

Lemma rfind_from_last i s t c :
  0 <= i -> lacks c t = true ->
  Py.rfind_from i (s ++ String c t) c = i + Z.of_nat (String.length s).
Proof.
  intros Hi Ht. revert i Hi. induction s as [|a s IH]; intros i Hi.
  - rewrite append_nil_l. simpl. rewrite (rfind_from_lacks _ _ _ Ht). simpl.
    rewrite Ascii.eqb_refl. lia.
  - rewrite append_cons. simpl String.length. simpl Py.rfind_from.
    rewrite IH by lia.
    destruct (Z.leb_spec 0 (i + 1 + Z.of_nat (String.length s))); lia.
Qed.

Lemma finds_name_char_at n p k j :
  k <= j < k + Z.of_nat n -> 0 <= k ->
  String.eqb (Py.char_at p j) "." = false ->
  Py.finds_name_char n p k = true.
Proof.
  revert k. induction n as [|n IH]; intros k Hj Hk Hc; [lia|].
  simpl. destruct (String.eqb (Py.char_at p k) ".") eqn:Hk'; [|done].
  simpl. apply IH; [|lia|done].
  assert (j <> k) by (intros ->; congruence). lia.
Qed.

(** The extension [splitext] finds when the last component of the path
    has a name character [c] before its last dot. *)
Lemma splitext_name_ext dir c rest ext :
  c <> "."%char -> lacks "/" (String c rest) = true ->
  lacks "." ext = true -> lacks "/" ext = true ->
  Py.splitext (dir ++ String c rest ++ "." ++ ext)
  = (dir ++ String c rest, "." ++ ext).
Proof.
  intros Hc Hrest Hdot Hsep.
  unfold Py.splitext, Py.rfind.
  assert (Py.rfind_from 0 (dir ++ String c rest ++ "." ++ ext) "/"
          = Py.rfind_from 0 dir "/") as ->.
  { apply rfind_from_append_lacks.
    rewrite lacks_append, Hrest. change ("." ++ ext) with (String "." ext).
    simpl. by rewrite Hsep. }
  pose proof (rfind_from_bounds 0 dir "/" ltac:(lia)) as Hb.
  set (sepIndex := Py.rfind_from 0 dir "/") in *.
  assert (Py.char_at (dir ++ String c rest ++ "." ++ ext)
            (Z.of_nat (String.length dir)) = String c "") as Hat
    by apply char_at_append.
  rewrite <- append_assoc in *. change ("." ++ ext) with (String "." ext) in *.
  pose proof (length_append dir (String c rest)) as Hlen.
  simpl String.length in Hlen.
  set (stem := dir ++ String c rest) in *.
  rewrite rfind_from_last by (lia || done).
  assert ((sepIndex <? 0 + Z.of_nat (String.length stem))%Z = true) as ->
    by (apply Z.ltb_lt; lia).
  rewrite (finds_name_char_at _ _ _ (Z.of_nat (String.length dir))).
  - simpl andb. cbv iota. rewrite Z.add_0_l, Nat2Z.id.
    by rewrite take_append, drop_append.
  - lia.
  - lia.
  - rewrite Hat. simpl. by destruct (Ascii.eqb_spec c ".").
Qed.

Lemma path_join_relative a b :
  Py.startswith b "/" = false ->
  Py.path_join a b = a ++ b \/ Py.path_join a b = a ++ "/" ++ b.
Proof. unfold Py.path_join. intros ->. case_match; auto. Qed.

Lemma append_truthy_r a b : Py.truthy b = true -> Py.truthy (a ++ b) = true.
Proof. destruct a, b; done. Qed.

End Strings.

(** ** The pieces of the script *)

(** The temporary path is never the empty string. *)
Lemma temp_path_truthy w key : Py.truthy (temp_path w key) = true.
Proof.
  unfold temp_path, temp_file_name.
  destruct (path_join_relative (tempdir w)
              ("temp_audio_" ++ Py.str_of_N (pid w) ++ snd (Py.splitext key)))
    as [-> | ->]; [reflexivity| |]; by apply append_truthy_r.
Qed.

(** Comparing two strings with a common prefix compares what follows
    it. *)
Lemma eqb_append_l s t u : String.eqb (s ++ t) (s ++ u) = String.eqb t u.
Proof.
  induction s as [|c s IH]; [done|].
  rewrite !append_cons. simpl. by rewrite Ascii.eqb_refl.
Qed.

(** A key found by [dict_lookup] is bound to the value in the
    dictionary. *)
Lemma dict_lookup_In {V} (d : list (string * V)) k v :
  dict_lookup d k = Some v -> In (k, v) d.
Proof.
  induction d as [|[k' v'] d IH]; simpl; [done|].
  destruct (String.eqb_spec k' k) as [->|_]; [intros [= ->]; by left|].
  intros ?%IH. by right.
Qed.

(** The entries of [languages]: a label with a name is that name, and
    no name is empty. *)
Lemma languages_named tl name :
  dict_lookup languages tl = Some (Some name) ->
  name = tl /\ Py.truthy name = true.
Proof.
  intros Hin%dict_lookup_In. simpl in Hin.
  repeat (destruct Hin as [Hin | Hin]; [by simplify_eq|]). done.
Qed.

(** The loop of the lister is a filter on the keys, appended to the
    list it starts with. *)
Lemma collect_audio_filter objs acc :
  collect_audio objs acc = (acc ++ List.filter is_audio_key (map Key objs))%list.
Proof.
  revert acc. induction objs as [|obj objs IH]; intros acc; simpl.
  - by rewrite app_nil_r.
  - rewrite IH. destruct (is_audio_key (Key obj)); [|done].
    by rewrite <- app_assoc.
Qed.

(** The [finally] block raises only what its own [except Exception]
    lets through. *)
Lemma cleanup_lets_through w st e :
  run_val (cleanup w st) = inl e -> is_Exception e = false.
Proof. destruct st as [files [path|]]; exec; by intros [= <-]. Qed.

(** What the [finally] block does once [temp_file_path] is set. *)
Lemma cleanup_run w files p :
  Py.truthy p = true ->
  cleanup w (State files (Some p))
  = match files !! p with
    | None => Run (State files (Some p)) [EvPathExists p false] (inr tt)
    | Some _ =>
        match os_open_error w p with
        | Some e =>
            if is_Exception e then
              Run (State files (Some p))
                [EvPathExists p true; EvOsOpen p;
                 UiWarning
                   ("Could not remove temporary file: " ++ exn_str e)]
                (inr tt)
            else
              Run (State files (Some p)) [EvPathExists p true; EvOsOpen p]
                (inl e)
        | None =>
            match os_remove_error w p with
            | Some e =>
                if is_Exception e then
                  Run (State files (Some p))
                    [EvPathExists p true; EvOsOpen p; EvOsClose p;
                     EvOsRemove p;
                     UiWarning
                       ("Could not remove temporary file: " ++ exn_str e)]
                    (inr tt)
                else
                  Run (State files (Some p))
                    [EvPathExists p true; EvOsOpen p; EvOsClose p;
                     EvOsRemove p]
                    (inl e)
            | None =>
                Run (State (delete p files) (Some p))
                  [EvPathExists p true; EvOsOpen p; EvOsClose p; EvOsRemove p]
                  (inr tt)
            end
        end
    end.
Proof. intros Hp. run_script. rewrite Hp. exec; reflexivity. Qed.

(** The [finally] block shows no result, no error, and calls no
    service. *)
Lemma cleanup_quiet w st :
  translator_calls (run_log (cleanup w st)) = []
  /\ download_offers (run_log (cleanup w st)) = []
  /\ displayed (run_log (cleanup w st)) = []
  /\ error_messages (run_log (cleanup w st)) = [].
Proof. destruct st as [files [path|]]; exec; finish. Qed.

(** The clean-up starts by testing the temporary path. *)
Lemma cleanup_starts w files p :
  Py.truthy p = true ->
  exists found rest,
    run_log (cleanup w (State files (Some p))) = EvPathExists p found :: rest.
Proof.
  intros Hp. rewrite (cleanup_run _ _ _ Hp).
  repeat case_match; simpl; eauto.
Qed.


(** The [try] with its [except] clause: the log of the body, followed
    by the error message when the body raised an exception the clause
    catches; an exception it does not catch goes through. *)
Lemma guarded_run (body : M unit) st :
  try_except body report_error st
  = Run (run_st (body st))
      (run_log (body st)
       ++ match run_val (body st) with
          | inl e =>
              if is_Exception e
              then [UiError ("An error occurred: " ++ exn_str e)]
              else []
          | inr _ => []
          end)
      match run_val (body st) with
      | inl e => if is_Exception e then inr tt else inl e
      | inr _ => inr tt
      end.
Proof.
  unfold try_except, report_error, emit.
  destruct (body st) as [st1 log1 [e|[]]]; simpl; [|by rewrite app_nil_r].
  destruct (is_Exception e); simpl; by rewrite ?app_nil_r.
Qed.

(** The button handler: spinner, guarded stages, clean-up in the state
    the stages left, end of the spinner.  It ends as the guarded stages
    end, unless the clean-up raises. *)
Lemma pipeline_run w key tl st :
  let guarded :=
    try_except (stages w key tl) report_error (State (fs st) None) in
  let final := cleanup w (run_st guarded) in
  pipeline w key tl st
  = Run (run_st final)
      (UiSpinnerEnter "Downloading and transcribing audio..."
       :: run_log guarded ++ run_log final ++ [UiSpinnerExit])
      match run_val final with
      | inl e => inl e
      | inr _ => run_val guarded
      end.
Proof.
  cbv zeta.
  unfold pipeline, with_spinner, try_finally, bind, emit, set_temp_file_path.
  simpl.
  destruct (try_except (stages w key tl) report_error (State (fs st) None))
    as [st1 log1 v1]. simpl.
  destruct (cleanup w st1) as [st2 log2 [e|[]]]; simpl;
    by rewrite <- app_assoc.
Qed.

(** What the stages do to the state, whatever their outcome: they set
    [temp_file_path], touch no other file, name no other path, and do
    nothing that belongs to the clean-up. *)
Lemma stages_state w key tl files tfp :
  let s := stages w key tl (State files tfp) in
  let p := temp_path w key in
  temp_file_path (run_st s) = Some p
  /\ (forall q, q <> p -> fs (run_st s) !! q = files !! q)
  /\ Forall (eq p) (flat_map event_paths (run_log s))
  /\ Forall (fun e => is_cleanup_event e = false) (run_log s)
  /\ error_messages (run_log s) = [].
Proof. intros s p. subst s p. exec; finish. Qed.

(** What the stages put on the page and ask of the chat service. *)
Lemma stages_page w key tl files tfp :
  let s := stages w key tl (State files tfp) in
  let p := temp_path w key in
  match download_file w (bucket_name w) key p with
  | DownloadFailed e _ =>
      run_val s = inl e /\ displayed (run_log s) = []
      /\ translator_calls (run_log s) = [] /\ download_offers (run_log s) = []
  | Downloaded data =>
      match audio_transcribe w data with
      | inl e =>
          run_val s = inl e /\ displayed (run_log s) = []
          /\ translator_calls (run_log s) = []
          /\ download_offers (run_log s) = []
      | inr transcript =>
          match dict_lookup languages tl with
          | None =>
              run_val s = inl (Exn "KeyError" (py_repr w tl) true)
              /\ displayed (run_log s) = [transcript]
              /\ translator_calls (run_log s) = []
              /\ download_offers (run_log s) = []
          | Some entry =>
              match entry with
              | Some name =>
                  if Py.truthy name then
                    translator_calls (run_log s)
                    = [("gpt-3.5-turbo", translate_messages transcript name)]
                    /\ match chat_completion w
                               (translate_messages transcript name) with
                       | inl e =>
                           run_val s = inl e
                           /\ displayed (run_log s) = [transcript]
                           /\ download_offers (run_log s) = []
                       | inr [] =>
                           run_val s
                           = inl (Exn "IndexError" "list index out of range"
                                    true)
                           /\ displayed (run_log s) = [transcript]
                           /\ download_offers (run_log s) = []
                       | inr (translation :: _) =>
                           run_val s = inr tt
                           /\ displayed (run_log s) = [transcript; translation]
                           /\ download_offers (run_log s)
                              = [(key ++ "_transcript_original.txt",
                                  transcript);
                                 (key ++ "_transcript_" ++ Py.lower tl
                                    ++ ".txt", translation)]
                       end
                  else
                    run_val s = inr tt
                    /\ displayed (run_log s) = [transcript]
                    /\ translator_calls (run_log s) = []
                    /\ download_offers (run_log s)
                       = [(key ++ "_transcript.txt", transcript)]
              | None =>
                  run_val s = inr tt
                  /\ displayed (run_log s) = [transcript]
                  /\ translator_calls (run_log s) = []
                  /\ download_offers (run_log s)
                     = [(key ++ "_transcript.txt", transcript)]
              end
          end
      end
  end.
Proof. intros s p. subst s p. exec; finish. Qed.

(** How a run of the pipeline ends, and what it shows: what its stages
    show, plus the error message when they raise an exception that
    [except Exception] catches. *)
Lemma pipeline_page w key tl st :
  let s := stages w key tl (State (fs st) None) in
  let log := run_log (pipeline w key tl st) in
  run_val (pipeline w key tl st)
  = match run_val (cleanup w (run_st s)) with
    | inl e' => inl e'
    | inr _ =>
        match run_val s with
        | inl e => if is_Exception e then inr tt else inl e
        | inr _ => inr tt
        end
    end
  /\ displayed log = displayed (run_log s)
  /\ translator_calls log = translator_calls (run_log s)
  /\ download_offers log = download_offers (run_log s)
  /\ error_messages log
     = match run_val s with
       | inl e =>
           if is_Exception e
           then ["An error occurred: " ++ exn_str e]
           else []
       | inr _ => []
       end.
Proof.
  cbv zeta. rewrite pipeline_run, guarded_run. simpl.
  set (s := stages w key tl _).
  destruct (cleanup_quiet w (run_st s)) as (Ht & Hd & Hw & He).
  destruct (stages_state w key tl (fs st) None) as (_ & _ & _ & _ & Hs).
  fold s in Hs. split; [done|].
  unfold displayed, translator_calls, download_offers, error_messages in *.
  destruct (run_val s) as [e|[]]; [destruct (is_Exception e)|];
    rewrite !flat_map_app, Ht, Hd, Hw, He, Hs; simpl;
    by rewrite ?app_nil_r.
Qed.

(** The pipeline leaves the temporary path in [temp_file_path]. *)
Lemma pipeline_temp_file_path w key tl st :
  temp_file_path (run_st (pipeline w key tl st)) = Some (temp_path w key).
Proof. destruct st. exec; reflexivity. Qed.

(** ** Properties of the script *)




(** C2, as amended.  When a stage raises [e], the remaining stages are
    skipped and the clean-up still runs, starting with its test of the
    temporary path; no download is offered.  When the class of [e]
    derives from [Exception] the pipeline goes straight to the error
    report: one error message made of the fixed prefix and [str(e)],
    and a normal end unless the clean-up raises.  Otherwise the clause
    of line 134 does not catch [e]: no message is shown and the
    pipeline raises.  A failing download is followed by no other stage,
    a failing transcription by no chat request, and in both cases
    nothing is displayed; once the transcription has succeeded the
    transcript is already on the page and stays there. *)
Theorem stage_error_reported (w : World) (key tl : string) (st : state)
    (e : exn) :
  let p := temp_path w key in
  let s := stages w key tl (State (fs st) None) in
  let final := cleanup w (run_st s) in
  let r := pipeline w key tl st in
  run_val s = inl e ->
  run_log r
  = (UiSpinnerEnter "Downloading and transcribing audio..."
     :: run_log s
     ++ (if is_Exception e
         then [UiError ("An error occurred: " ++ exn_str e)]
         else [])
     ++ run_log final ++ [UiSpinnerExit])%list
  /\ (exists found rest, run_log final = EvPathExists p found :: rest)
  /\ error_messages (run_log r)
     = (if is_Exception e then ["An error occurred: " ++ exn_str e] else [])
  /\ download_offers (run_log r) = []
  /\ run_val r
     = match run_val final with
       | inl e' => inl e'
       | inr _ => if is_Exception e then inr tt else inl e
       end
  /\ match download_file w (bucket_name w) key p with
     | DownloadFailed _ _ =>
         run_log s = [EvDownloadFile (bucket_name w) key p]
         /\ displayed (run_log r) = []
     | Downloaded data =>
         match audio_transcribe w data with
         | inl _ =>
             run_log s
             = [EvDownloadFile (bucket_name w) key p; EvOpenRead p;
                EvAudioTranscribe data "whisper-1" "text"]
             /\ displayed (run_log r) = []
         | inr transcript =>
             In (UiSuccess "Transcription completed!") (run_log r)
             /\ displayed (run_log r) = [transcript]
         end
     end.
Proof.
  intros p s final r Hs.
  destruct (pipeline_page w key tl st) as (Hval & Hd & Ht & Ho & He).
  fold s final r in Hval, Hd, Ht, Ho, He. rewrite Hs in He, Hval.
  assert (run_log r
          = (UiSpinnerEnter "Downloading and transcribing audio..."
             :: run_log s
             ++ (if is_Exception e
                 then [UiError ("An error occurred: " ++ exn_str e)]
                 else [])
             ++ run_log final ++ [UiSpinnerExit])%list) as Hlog.
  { subst r. rewrite pipeline_run, guarded_run. fold s. rewrite Hs. simpl.
    by rewrite <- app_assoc. }
  split; [done|]. split.
  { destruct (stages_state w key tl (fs st) None) as (Hp & _). fold s in Hp.
    subst final. destruct (run_st s) as [files tfp]. simpl in Hp. subst tfp.
    apply cleanup_starts, temp_path_truthy. }
  split; [done|]. split.
  { rewrite Ho. revert Hs. subst s. destruct st as [files tfp]. simpl.
    exec; finish. }
  split; [done|].
  rewrite Hd. assert (In (UiSuccess "Transcription completed!") (run_log s)
                      -> In (UiSuccess "Transcription completed!") (run_log r))
    as Hin.
  { rewrite Hlog. intros Hin. right. apply in_or_app. by left. }
  revert Hs Hin. generalize (run_log r). subst s p.
  destruct st as [files tfp]. simpl.
  exec; finish.
  all: apply Hin; simpl; auto 10.
Qed.

(** A download that raises not-found: one message, nothing displayed. *)
Lemma stage_error_reported_witness :
  displayed
    (run_log (pipeline world_download_fails "c.mp3" "French" no_files)) = []
  /\ error_messages
       (run_log (pipeline world_download_fails "c.mp3" "French" no_files))
     = ["An error occurred: " ++ exn_str not_found].
Proof.
  pose proof (stage_error_reported world_download_fails "c.mp3" "French"
                no_files not_found eq_refl) as (_ & _ & He & _ & _ & _ & Hd).
  split; [exact Hd | exact He].
Defined.

(** C2 as stated fails: when the chat request raises, the transcript is
    already on the page. *)
Lemma stage_error_keeps_transcript :
  run_val (stages world_translate_fails "c.mp3" "French" no_files)
  = inl rate_limit
  /\ ~ no_results_available
         (run_log (pipeline world_translate_fails "c.mp3" "French" no_files)).
Proof. split; [reflexivity|]. intros [Hd _]. discriminate Hd. Qed.

(** C3. The lister returns exactly the keys of the listing whose
    lower-cased form ends with one of the seven audio suffixes, in the
    order of the listing; [notes.TXT] is left out, [clip.MP3] is kept,
    and the listing [a.wav, b.txt, c.mp3] gives [a.wav, c.mp3]. *)
Theorem lister_keeps_audio_keys (w : World) (st : state) :
  run_val (list_s3_audio_files w st)
  = match list_objects_v2 w (bucket_name w) with
    | inl e => inl e
    | inr response =>
        inr (List.filter is_audio_key (map Key (get_Contents response [])))
    end
  /\ (forall key,
        is_audio_key key = true <->
        exists stem suffix,
          In suffix [".mp3"; ".mp4"; ".mpeg"; ".mpga"; ".m4a"; ".wav"; ".webm"]
          /\ Py.lower key = stem ++ suffix)
  /\ is_audio_key "notes.TXT" = false
  /\ is_audio_key "clip.MP3" = true
  /\ run_val (list_s3_audio_files world_ok no_files) = inr ["a.wav"; "c.mp3"].
Proof.
  split; [|split; [|done]].
  - exec; [done|]. by rewrite collect_audio_filter.
  - intros key. apply endswith_any_spec.
Qed.

(** A key in mixed case with a known suffix is an audio key. *)
Lemma lister_keeps_audio_keys_witness : is_audio_key "talk.WebM" = true.
Proof.
  apply (proj1 (proj2 (lister_keeps_audio_keys world_ok no_files))).
  exists "talk", ".webm". split; [simpl; auto 10 | reflexivity].
Defined.

(** C4, as amended.  When the label names a language, that name is the
    label.  When the download and the transcription succeed, one chat
    request is made, built from the whole transcript and the name of
    the language; when it returns a translation, the two downloads
    offered are the transcript and the translation under their file
    names, and when it does not, nothing is offered.  When the download
    or the transcription raises, no chat request is made and nothing is
    offered. *)
Theorem named_language_translates
    (w : World) (key tl name : string) (st : state) :
  dict_lookup languages tl = Some (Some name) ->
  let log := run_log (pipeline w key tl st) in
  name = tl
  /\ match download_file w (bucket_name w) key (temp_path w key) with
     | DownloadFailed _ _ =>
         translator_calls log = [] /\ download_offers log = []
     | Downloaded data =>
         match audio_transcribe w data with
         | inl _ => translator_calls log = [] /\ download_offers log = []
         | inr transcript =>
             translator_calls log
             = [("gpt-3.5-turbo", translate_messages transcript name)]
             /\ download_offers log
                = match chat_completion w
                          (translate_messages transcript name) with
                  | inr (translation :: _) =>
                      [(key ++ "_transcript_original.txt", transcript);
                       (key ++ "_transcript_" ++ Py.lower name ++ ".txt",
                        translation)]
                  | _ => []
                  end
         end
     end.
Proof.
  intros Hname log.
  destruct (languages_named _ _ Hname) as [-> Htruthy].
  destruct (pipeline_page w key tl st) as (_ & _ & Ht & Ho & _).
  subst log. rewrite Ht, Ho. split; [done|].
  pose proof (stages_page w key tl (fs st) None) as Hpage. cbv zeta in Hpage.
  destruct (download_file w (bucket_name w) key (temp_path w key))
    as [data|e partial]; [|by destruct Hpage as (_ & _ & -> & ->)].
  destruct (audio_transcribe w data) as [e|transcript];
    [by destruct Hpage as (_ & _ & -> & ->)|].
  rewrite Hname, Htruthy in Hpage. destruct Hpage as [-> Hchat].
  split; [done|].
  destruct (chat_completion w (translate_messages transcript tl))
    as [e|[|translation choices]]; by destruct Hchat as (_ & _ & ->).
Qed.

(** The key [c.mp3] in French: transcript [Bonjour], translation
    [Hello], two downloads. *)
Lemma named_language_translates_witness :
  translator_calls (run_log (pipeline world_ok "c.mp3" "French" no_files))
  = [("gpt-3.5-turbo", translate_messages "Bonjour" "French")]
  /\ download_offers (run_log (pipeline world_ok "c.mp3" "French" no_files))
     = [("c.mp3_transcript_original.txt", "Bonjour");
        ("c.mp3_transcript_french.txt", "Hello")].
Proof.
  exact (proj2 (named_language_translates world_ok "c.mp3" "French" "French"
                  no_files eq_refl)).
Defined.

(** C4 as stated fails: with a named language and a failing download no
    chat request is made and nothing is offered. *)
Lemma named_language_download_fails :
  dict_lookup languages "French" = Some (Some "French")
  /\ ~ (length
          (translator_calls
             (run_log (pipeline world_download_fails "c.mp3" "French"
                         no_files))) = 1
        /\ length
             (download_offers
                (run_log (pipeline world_download_fails "c.mp3" "French"
                            no_files))) = 2)%nat.
Proof. split; [reflexivity|]. intros [H _]. discriminate H. Qed.

(** C5, as amended.  When the label has no language, no chat request is
    made; the one download offered is the transcript under
    [{key}_transcript.txt] when the download and the transcription
    succeed, and nothing is offered when one of them raises. *)
Theorem no_translation_offers_transcript
    (w : World) (key tl : string) (st : state) :
  dict_lookup languages tl = Some None ->
  let log := run_log (pipeline w key tl st) in
  translator_calls log = []
  /\ download_offers log
     = match download_file w (bucket_name w) key (temp_path w key) with
       | Downloaded data =>
           match audio_transcribe w data with
           | inr transcript => [(key ++ "_transcript.txt", transcript)]
           | inl _ => []
           end
       | DownloadFailed _ _ => []
       end.
Proof.
  intros Hnone log.
  destruct (pipeline_page w key tl st) as (_ & _ & Ht & Ho & _).
  subst log. rewrite Ht, Ho.
  pose proof (stages_page w key tl (fs st) None) as Hpage. cbv zeta in Hpage.
  rewrite Hnone in Hpage.
  destruct (download_file w (bucket_name w) key (temp_path w key))
    as [data|e partial]; [|by destruct Hpage as (_ & _ & -> & ->)].
  destruct (audio_transcribe w data) as [e|transcript];
    by destruct Hpage as (_ & _ & -> & ->).
Qed.

(** The key [c.mp3] without translation: one download. *)
Lemma no_translation_offers_transcript_witness :
  translator_calls
    (run_log (pipeline world_ok "c.mp3" "Original (No Translation)" no_files))
  = []
  /\ download_offers
       (run_log (pipeline world_ok "c.mp3" "Original (No Translation)"
                   no_files))
     = [("c.mp3_transcript.txt", "Bonjour")].
Proof.
  exact (no_translation_offers_transcript world_ok "c.mp3"
           "Original (No Translation)" no_files eq_refl).
Defined.

(** C5 as stated fails: without translation and with a failing download
    there is no download to offer. *)
Lemma no_translation_download_fails :
  dict_lookup languages "Original (No Translation)" = Some None
  /\ length
       (download_offers
          (run_log (pipeline world_download_fails "c.mp3"
                      "Original (No Translation)" no_files))) <> 1%nat.
Proof. split; [reflexivity|]. discriminate. Qed.

(** C6. In every run that ends normally and reports no error, the
    download that carries the original transcript, under either of its
    two file names, holds exactly the string the transcription service
    returned for the downloaded bytes. *)
Theorem original_transcript_round_trip
    (w : World) (key tl : string) (entry : option string) (st : state) :
  dict_lookup languages tl = Some entry ->
  run_val (pipeline w key tl st) = inr tt ->
  error_messages (run_log (pipeline w key tl st)) = [] ->
  exists data transcript,
    download_file w (bucket_name w) key (temp_path w key) = Downloaded data
    /\ audio_transcribe w data = inr transcript
    /\ (original_offers key (run_log (pipeline w key tl st))
        = [(key ++ "_transcript_original.txt", transcript)]
        \/ original_offers key (run_log (pipeline w key tl st))
           = [(key ++ "_transcript.txt", transcript)]).
Proof.
  intros Hentry Hend Hok.
  destruct (pipeline_page w key tl st) as (Hval & _ & _ & Ho & He).
  rewrite Hok in He. rewrite Hend in Hval.
  unfold original_offers. rewrite Ho. clear Ho Hok Hend.
  assert (run_val (stages w key tl (State (fs st) None)) = inr tt) as Hs.
  { destruct (run_val (cleanup w _)); [done|].
    destruct (run_val (stages w key tl _)) as [e|[]]; [|done].
    by destruct (is_Exception e). }
  clear Hval He.
  pose proof (stages_page w key tl (fs st) None) as Hpage. cbv zeta in Hpage.
  destruct (download_file w (bucket_name w) key (temp_path w key))
    as [data|e partial]; [|destruct Hpage as [Hv _]; by rewrite Hv in Hs].
  destruct (audio_transcribe w data) as [e|transcript] eqn:Htr;
    [destruct Hpage as [Hv _]; by rewrite Hv in Hs|].
  exists data, transcript. split; [done|]. split; [done|].
  rewrite Hentry in Hpage.
  assert (List.filter
            (fun o => String.eqb (fst o) (key ++ "_transcript_original.txt")
                      || String.eqb (fst o) (key ++ "_transcript.txt"))
            [(key ++ "_transcript.txt", transcript)]
          = [(key ++ "_transcript.txt", transcript)]) as Hplain.
  { simpl. by rewrite !eqb_append_l. }
  destruct entry as [name|]; [|destruct Hpage as (_ & _ & _ & ->); by right].
  destruct (Py.truthy name);
    [|destruct Hpage as (_ & _ & _ & ->); by right].
  destruct Hpage as [_ Hchat].
  destruct (chat_completion w (translate_messages transcript name))
    as [e|[|translation choices]];
    [destruct Hchat as [Hv _]; by rewrite Hv in Hs..|].
  destruct Hchat as (_ & _ & ->). left.
  apply dict_lookup_In in Hentry. simpl in Hentry.
  repeat (destruct Hentry as [Hentry | Hentry];
          [simplify_eq; simpl; by rewrite !eqb_append_l|]).
  done.
Qed.

(** The key [c.mp3] in French, every service answering. *)
Lemma original_transcript_round_trip_witness :
  exists data transcript,
    download_file world_ok (bucket_name world_ok) "c.mp3"
      (temp_path world_ok "c.mp3") = Downloaded data
    /\ audio_transcribe world_ok data = inr transcript
    /\ (original_offers "c.mp3"
          (run_log (pipeline world_ok "c.mp3" "French" no_files))
        = [("c.mp3" ++ "_transcript_original.txt", transcript)]
        \/ original_offers "c.mp3"
             (run_log (pipeline world_ok "c.mp3" "French" no_files))
           = [("c.mp3" ++ "_transcript.txt", transcript)]).
Proof.
  exact (original_transcript_round_trip world_ok "c.mp3" "French"
           (Some "French") no_files eq_refl eq_refl eq_refl).
Defined.

(** C7, as amended.  An error of the listing is raised outside the
    [try]: the script stops there, raising it, with no error message.
    An exception whose class derives from [Exception], as every
    transport error is, raised by the download, the transcription or the
    chat request is caught by the handler of the pipeline: the guarded
    stages end normally and the page shows one message made of the fixed
    prefix and [str(e)], whatever the class of the error; the pipeline
    then ends as its clean-up ends. *)
Theorem service_errors_reported (w : World) (st : state) :
  (forall u e,
     list_objects_v2 w (bucket_name w) = inl e ->
     run_val (script w u st) = inl e
     /\ last (run_log (script w u st)) = Some (EvListObjects (bucket_name w))
     /\ error_messages (run_log (script w u st)) = [])
  /\ (forall key tl e,
        service_raises w key tl e ->
        is_Exception e = true ->
        caught_and_reported
          (try_except (stages w key tl) report_error (State (fs st) None)) e
        /\ error_messages (run_log (pipeline w key tl st))
           = ["An error occurred: " ++ exn_str e]
        /\ run_val (pipeline w key tl st)
           = run_val (cleanup w (run_st (stages w key tl
                                           (State (fs st) None))))).
Proof.
  split.
  - intros u e Hlist. destruct st. run_script. rewrite Hlist. by run_script.
  - intros key tl e Hraise Hclass.
    destruct (pipeline_page w key tl st) as (Hval & _ & _ & _ & He).
    destruct (stages_state w key tl (fs st) None) as (_ & _ & _ & _ & Hnone).
    cbv zeta in Hnone.
    rewrite He, Hval, guarded_run. unfold caught_and_reported. simpl.
    assert (run_val (stages w key tl (State (fs st) None)) = inl e) as ->.
    { pose proof (stages_page w key tl (fs st) None) as Hpage.
      cbv zeta in Hpage.
      destruct Hraise as [e partial Hdl | data e Hdl Htr
                         | data transcript name e Hdl Htr Hname Hchat].
      + rewrite Hdl in Hpage. by destruct Hpage as [-> _].
      + rewrite Hdl, Htr in Hpage. by destruct Hpage as [-> _].
      + destruct (languages_named _ _ Hname) as [_ Htruthy].
        rewrite Hdl, Htr, Hname, Htruthy, Hchat in Hpage.
        by destruct Hpage as (_ & -> & _). }
    rewrite Hclass. unfold error_messages in *.
    rewrite flat_map_app, Hnone. simpl.
    repeat split; [by exists tt|]. by destruct (run_val (cleanup w _)) as [|[]].
Qed.

(** A rate limit of the chat service is reported; a time-out of the
    listing is raised by the script. *)
Lemma service_errors_reported_witness :
  error_messages
    (run_log (pipeline world_translate_fails "c.mp3" "French" no_files))
  = ["An error occurred: " ++ exn_str rate_limit]
  /\ run_val (script world_list_fails (press 1 French) no_files)
     = inl timed_out.
Proof.
  split.
  - apply (proj2 (service_errors_reported world_translate_fails no_files)
             "c.mp3" "French" rate_limit); [|reflexivity].
    by apply (translation_raises _ _ _ sample_audio "Bonjour" "French").
  - by apply (proj1 (service_errors_reported world_list_fails no_files)).
Defined.

(** C7 as stated fails for the listing: its error is not caught, the
    script raises it and shows no message. *)
Lemma listing_error_not_caught :
  list_objects_v2 world_list_fails (bucket_name world_list_fails)
  = inl timed_out
  /\ ~ caught_and_reported
         (script world_list_fails (press 1 French) no_files) timed_out.
Proof. split; [reflexivity|]. intros [[a Ha] _]. discriminate Ha. Qed.

(** C8. The temporary path is the temporary directory joined with the
    prefix, the process identifier and the extension [splitext] finds in
    the key; for a key whose last component has a name before its last
    dot, that extension is the dot and what follows it, whatever the
    directories and the base name are. *)
Theorem temp_path_keeps_extension
    (w : World) (key tl : string) (st : state) :
  temp_file_path (run_st (pipeline w key tl st))
  = Some (Py.path_join (tempdir w)
            ("temp_audio_" ++ Py.str_of_N (pid w) ++ snd (Py.splitext key)))
  /\ (forall dir c rest ext,
        key = dir ++ String c rest ++ "." ++ ext ->
        c <> "."%char -> lacks "/" (String c rest) = true ->
        lacks "." ext = true -> lacks "/" ext = true ->
        temp_file_path (run_st (pipeline w key tl st))
        = Some (Py.path_join (tempdir w)
                  ("temp_audio_" ++ Py.str_of_N (pid w) ++ "." ++ ext))).
Proof.
  rewrite pipeline_temp_file_path. split; [done|].
  intros dir c rest ext -> Hc Hrest Hdot Hsep.
  unfold temp_path, temp_file_name.
  by rewrite splitext_name_ext.
Qed.

(** A key in a directory, with a leading dot and two extensions. *)
Lemma temp_path_keeps_extension_witness :
  temp_file_path
    (run_st (pipeline world_ok "talks/2024/.hidden.tar.MP3" "French" no_files))
  = Some "/tmp/temp_audio_4242.MP3".
Proof.
  apply (proj2 (temp_path_keeps_extension world_ok "talks/2024/.hidden.tar.MP3"
           "French" no_files) "talks/2024/." "h"%char "idden.tar" "MP3");
    [reflexivity | discriminate | reflexivity | reflexivity | reflexivity].
Defined.

(** C9. When the listing succeeds with no ['Contents'] entry, or with an
    empty one, the lister returns the empty list and raises nothing. *)
Theorem lister_empty_bucket (w : World) (st : state) (response : list_response) :
  list_objects_v2 w (bucket_name w) = inr response ->
  Contents response = None \/ Contents response = Some [] ->
  list_s3_audio_files w st = Run st [EvListObjects (bucket_name w)] (inr []).
Proof.
  intros Hlist Hempty. destruct st. exec; simplify_eq.
  unfold get_Contents. by destruct Hempty as [-> | ->].
Qed.

(** A response without [Contents]. *)
Lemma lister_empty_bucket_witness :
  list_s3_audio_files world_empty_bucket no_files
  = Run no_files [EvListObjects (Some "recordings")] (inr []).
Proof.
  apply (lister_empty_bucket world_empty_bucket no_files (ListResponse None)).
  - reflexivity.
  - left. reflexivity.
Defined.

(** C10. Every call of the translator sends one chat request whose
    system message is the fixed persona and whose single user message
    is the prompt announcing English text, followed by two line feeds
    and the text. *)
Theorem translator_prompt (w : World) (text target : string) (st : state) :
  run_log (translate_text w text target st)
  = [EvChatCompletion "gpt-3.5-turbo"
       [Message "system" "You are a professional translator.";
        Message "user"
          ("Translate the following English text to " ++ target ++ ":"
           ++ String "010" (String "010" text))]]
  /\ run_log (translate_text w "Hola" "French" st)
     = [EvChatCompletion "gpt-3.5-turbo"
          [Message "system" "You are a professional translator.";
           Message "user" "Translate the following English text to French:

Hola"]].
Proof.
  destruct st. split; exec; reflexivity.
Qed.

(** ** More on the string operations *)

Lemma take_drop n s : Py.take n s ++ Py.drop n s = s.
Proof.
  revert s. induction n as [|n IH]; intros [|c s]; simpl; try done.
  by rewrite append_cons, IH.
Qed.

Lemma lower_append s t : Py.lower (s ++ t) = Py.lower s ++ Py.lower t.
Proof.
  induction s as [|c s IH]; [done|].
  rewrite append_cons. simpl. by rewrite IH.
Qed.

Lemma lower_length s : String.length (Py.lower s) = String.length s.
Proof. induction s as [|c s IH]; simpl; by rewrite ?IH. Qed.

Lemma lower_char_dot c :
  Ascii.eqb (Py.lower_char c) "." = Ascii.eqb c ".".
Proof. by destruct c as [[] [] [] [] [] [] [] []]. Qed.

Lemma lower_lacks_dot s : lacks "." (Py.lower s) = lacks "." s.
Proof.
  induction s as [|c s IH]; [done|]. simpl. by rewrite lower_char_dot, IH.
Qed.

(** [rfind] answers [-1] only when the character does not occur. *)
Lemma rfind_from_none i s c :
  0 <= i -> Py.rfind_from i s c < 0 -> lacks c s = true.
Proof.
  revert i. induction s as [|a s IH]; intros i Hi; simpl; [done|].
  destruct (Z.leb_spec 0 (Py.rfind_from (i + 1) s c)) as [|Hlt]; [lia|].
  destruct (Ascii.eqb a c); [lia|]. intros _. simpl.
  apply (IH (i + 1)); lia.
Qed.

(** Otherwise it answers the position of the last occurrence. *)
Lemma rfind_from_found i s c :
  0 <= i -> 0 <= Py.rfind_from i s c ->
  exists a b,
    s = a ++ String c b /\ lacks c b = true
    /\ Py.rfind_from i s c = i + Z.of_nat (String.length a).
Proof.
  revert i. induction s as [|x s IH]; intros i Hi; simpl; [lia|].
  destruct (Z.leb_spec 0 (Py.rfind_from (i + 1) s c)) as [Hle|Hlt].
  - intros _. destruct (IH (i + 1) ltac:(lia) Hle) as (a & b & -> & Hb & ->).
    exists (String x a), b. rewrite append_cons. simpl String.length.
    repeat split; [done|lia].
  - destruct (Ascii.eqb_spec x c) as [->|]; [|lia]. intros _.
    exists "", s. rewrite append_nil_l. simpl.
    repeat split; [|lia]. apply (rfind_from_none (i + 1)); lia.
Qed.

Lemma append_eq_longer a x a' c y :
  a ++ x = a' ++ String c y ->
  (String.length a' < String.length a)%nat ->
  exists m, y = m ++ x.
Proof.
  revert a. induction a' as [|d a' IH]; intros [|e a]; simpl; try lia.
  - rewrite append_nil_l, append_cons. intros [= _ <-] _. by exists a.
  - rewrite !append_cons. intros [= _ Heq] Hlen. apply (IH a Heq). lia.
Qed.

(** X1. [splitext] cuts the path in two: the root followed by the
    extension is the path again. *)
Theorem splitext_round_trip (p : string) :
  fst (Py.splitext p) ++ snd (Py.splitext p) = p.
Proof.
  unfold Py.splitext. case_match; simpl; [apply take_drop|apply append_nil_r].
Qed.

(** The two cases of the extension: none, or the text from the last dot
    of the last component on. *)
Lemma splitext_ext_cases (p : string) :
  snd (Py.splitext p) = ""
  \/ exists e,
       snd (Py.splitext p) = "." ++ e
       /\ lacks "." e = true /\ lacks "/" e = true.
Proof.
  unfold Py.splitext, Py.rfind.
  pose proof (rfind_from_bounds 0 p "/" ltac:(lia)) as Hsep.
  destruct (_ && _) eqn:Hcond; [|by left]. right.
  apply andb_prop in Hcond as [Hlt%Z.ltb_lt _].
  destruct (rfind_from_found 0 p "." ltac:(lia) ltac:(lia))
    as (a & e & Hp & He & Hdot).
  rewrite Hdot in *. simpl. rewrite Z.add_0_l, Nat2Z.id.
  exists e. rewrite Hp at 1. rewrite drop_append. split; [done|].
  split; [done|].
  destruct (Z.leb_spec 0 (Py.rfind_from 0 p "/")) as [Hfound|Hnone].
  - destruct (rfind_from_found 0 p "/" ltac:(lia) Hfound)
      as (a' & b' & Hp' & Hb' & Hsep').
    rewrite Hp in Hp'.
    destruct (append_eq_longer a (String "." e) a' "/" b' Hp' ltac:(lia))
      as [m ->].
    rewrite lacks_append in Hb'. apply andb_prop in Hb' as [_ Hb'].
    simpl in Hb'. done.
  - pose proof (rfind_from_none 0 p "/" ltac:(lia) Hnone) as Hp'.
    rewrite Hp, lacks_append in Hp'. apply andb_prop in Hp' as [_ Hp'].
    simpl in Hp'. done.
Qed.

(** X2. The extension [splitext] finds is empty, or it is a dot followed
    by characters among which there is no dot and no slash. *)
Theorem splitext_extension_shape (p : string) :
  snd (Py.splitext p) = ""
  \/ exists e,
       snd (Py.splitext p) = "." ++ e
       /\ lacks "." e = true /\ lacks "/" e = true.
Proof.
  destruct (splitext_ext_cases p) as [Hnone|(e & He & Hdot & Hsep)].
  - by left.
  - right. exists e. by repeat split.
Qed.

(** The decimal digits of a number contain no dot and no slash. *)
Lemma str_of_N_lacks n :
  lacks "." (Py.str_of_N n) = true /\ lacks "/" (Py.str_of_N n) = true.
Proof.
  unfold Py.str_of_N.
  assert (forall d, lacks "." (NilEmpty.string_of_uint d) = true
                    /\ lacks "/" (NilEmpty.string_of_uint d) = true) as Hd.
  { induction d; simpl; auto. }
  destruct (N.to_uint n) eqn:Hn; try (simpl; apply Hd); done.
Qed.

Lemma str_of_N_inj n m : Py.str_of_N n = Py.str_of_N m -> n = m.
Proof.
  unfold Py.str_of_N. intros Heq.
  assert (N.to_uint n <> Decimal.Nil /\ N.to_uint m <> Decimal.Nil) as [Hn Hm].
  { split; [destruct n as [|p] | destruct m as [|p]]; try done;
      unfold N.to_uint; intros H; by apply (DecimalPos.Unsigned.to_uint_nonnil p). }
  pose proof (NilZero.usu _ Hn) as H1. pose proof (NilZero.usu _ Hm) as H2.
  rewrite Heq, H2 in H1. injection H1 as H1.
  rewrite <- (DecimalN.Unsigned.of_to n), <- (DecimalN.Unsigned.of_to m).
  by rewrite H1.
Qed.

(** Two strings without dot, each followed by nothing or by a dot and
    more, are equal only part by part. *)
Lemma append_dot_split a x b y :
  lacks "." a = true -> lacks "." b = true ->
  (x = "" \/ exists x', x = String "." x') ->
  (y = "" \/ exists y', y = String "." y') ->
  a ++ x = b ++ y -> a = b /\ x = y.
Proof.
  revert b. induction a as [|c a IH]; intros [|d b] Ha Hb Hx Hy;
    rewrite ?append_nil_l, ?append_cons.
  - done.
  - simpl in Hb. apply andb_prop in Hb as [Hd _].
    destruct Hx as [->|[x' ->]]; [done|]. intros [= <- _]. done.
  - simpl in Ha. apply andb_prop in Ha as [Hc _].
    destruct Hy as [->|[y' ->]]; [done|]. intros [= -> _]. done.
  - simpl in Ha, Hb. apply andb_prop in Ha as [_ Ha].
    apply andb_prop in Hb as [_ Hb]. intros [= -> Heq].
    destruct (IH b Ha Hb Hx Hy Heq) as [-> ->]. done.
Qed.

Lemma splitext_extension_head p :
  snd (Py.splitext p) = "" \/ exists e, snd (Py.splitext p) = String "." e.
Proof.
  destruct (splitext_ext_cases p) as [->|(e & -> & _)]; eauto.
Qed.

(** X3. The name of the temporary file has no slash, whatever the key:
    the file is placed in the temporary directory itself. *)
Theorem temp_file_in_tempdir (w : World) (key : string) :
  lacks "/" (temp_file_name (pid w) key) = true
  /\ (temp_path w key = tempdir w ++ temp_file_name (pid w) key
      \/ temp_path w key = tempdir w ++ "/" ++ temp_file_name (pid w) key).
Proof.
  split.
  - unfold temp_file_name. rewrite !lacks_append.
    destruct (str_of_N_lacks (pid w)) as [_ ->].
    destruct (splitext_ext_cases key) as [->|(e & -> & _ & He)];
      [done|].
    change ("." ++ e) with (String "." e). simpl. by rewrite He.
  - by apply path_join_relative.
Qed.

(** X5. A key whose last component is a dot followed by a suffix, as in
    [talks/.mp3], has no extension for [splitext]: when the suffix is an
    audio suffix the lister keeps the key, and its temporary file is
    named without extension. *)
Theorem hidden_key_loses_extension (dir ext : string) (process : N) :
  dir = "" \/ (exists d, dir = d ++ "/") ->
  lacks "." ext = true -> lacks "/" ext = true ->
  In (Py.lower ("." ++ ext)) audio_suffixes ->
  is_audio_key (dir ++ "." ++ ext) = true
  /\ temp_file_name process (dir ++ "." ++ ext)
     = "temp_audio_" ++ Py.str_of_N process.
Proof.
  intros Hdir Hdot Hsep Hin. split.
  - apply endswith_any_spec. exists (Py.lower dir), (Py.lower ("." ++ ext)).
    by rewrite <- lower_append.
  - unfold temp_file_name.
    assert (Py.splitext (dir ++ "." ++ ext) = (dir ++ "." ++ ext, ""))
      as ->; [|by rewrite append_nil_r].
    unfold Py.splitext, Py.rfind.
    change ("." ++ ext) with (String "." ext).
    rewrite rfind_from_last by (lia || done).
    destruct Hdir as [->|[d ->]].
    + rewrite append_nil_l.
      rewrite (rfind_from_lacks 0 (String "." ext) "/")
        by (simpl; by rewrite Hsep).
      done.
    + rewrite append_assoc. change ("/" ++ String "." ext)
        with (String "/" (String "." ext)).
      rewrite rfind_from_last by (lia || (simpl; by rewrite Hsep)).
      rewrite length_append. simpl String.length.
      replace (Z.to_nat _) with 0%nat by lia.
      simpl. by rewrite andb_false_r.
Qed.

Lemma hidden_key_loses_extension_witness :
  is_audio_key ("talks/" ++ "." ++ "WAV") = true
  /\ temp_file_name 4242 ("talks/" ++ "." ++ "WAV")
     = "temp_audio_" ++ Py.str_of_N 4242.
Proof.
  apply (hidden_key_loses_extension "talks/" "WAV" 4242).
  - right. by exists "talks".
  - reflexivity.
  - reflexivity.
  - simpl. auto 10.
Defined.

(** X7. A key the lister keeps has a dot and at least four characters;
    in particular it is not the empty string, which the script would
    take for no selection. *)
Theorem audio_key_shape (key : string) :
  is_audio_key key = true ->
  lacks "." key = false
  /\ (4 <= String.length key)%nat
  /\ Py.truthy key = true.
Proof.
  intros (stem & suffix & Hin & Hlower)%endswith_any_spec.
  assert (lacks "." (stem ++ suffix) = false
          /\ (4 <= String.length (stem ++ suffix))%nat) as [Hdot Hlen].
  { rewrite lacks_append, length_append. simpl in Hin.
    repeat (destruct Hin as [<-|Hin];
            [split; [apply andb_false_r | simpl; lia]|]).
    done. }
  rewrite <- Hlower, lower_lacks_dot, lower_length in *.
  repeat split; try done. by destruct key.
Qed.

Lemma audio_key_shape_witness :
  lacks "." "a.wav" = false
  /\ (4 <= String.length "a.wav")%nat
  /\ Py.truthy "a.wav" = true.
Proof. apply audio_key_shape. reflexivity. Defined.

(** ** More on the pipeline *)

Lemma temp_file_name_inj (p1 p2 : N) (key1 key2 : string) :
  temp_file_name p1 key1 = temp_file_name p2 key2 ->
  p1 = p2 /\ snd (Py.splitext key1) = snd (Py.splitext key2).
Proof.
  unfold temp_file_name. intros Heq.
  apply (inj (String.append "temp_audio_")) in Heq.
  destruct (append_dot_split _ _ _ _
              (proj1 (str_of_N_lacks p1)) (proj1 (str_of_N_lacks p2))
              (splitext_extension_head key1) (splitext_extension_head key2)
              Heq) as [Hp He].
  split; [by apply str_of_N_inj | done].
Qed.

(** X4. In one temporary directory, two runs use the same temporary
    path only when they are in the same process and their keys have the
    same extension: runs of different processes never share the file. *)
Theorem temp_path_inj (w1 w2 : World) (key1 key2 : string) :
  tempdir w1 = tempdir w2 ->
  temp_path w1 key1 = temp_path w2 key2 ->
  pid w1 = pid w2 /\ snd (Py.splitext key1) = snd (Py.splitext key2).
Proof.
  unfold temp_path, Py.path_join. intros <-.
  assert (forall p key, Py.startswith (temp_file_name p key) "/" = false)
    as Hrel by done.
  rewrite !Hrel. intros Heq. apply temp_file_name_inj.
  destruct (_ || _); apply (inj (String.append (tempdir w1))) in Heq;
    [done|]. by apply (inj (String.append "/")) in Heq.
Qed.

Lemma temp_path_inj_witness :
  pid world_ok = pid world_remove_fails
  /\ snd (Py.splitext "a/one.mp3") = snd (Py.splitext "b/two.x.mp3").
Proof. apply temp_path_inj; reflexivity. Defined.

(** X8. In every run the pipeline asks for one download, of the selected
    key from the configured bucket to the temporary path; it sends one
    transcription request, with exactly the downloaded bytes, when the
    download succeeds, and none when the download raises, whatever file
    is then at the temporary path. *)
Theorem pipeline_requests (w : World) (key tl : string) (st : state) :
  download_calls (run_log (pipeline w key tl st))
  = [(bucket_name w, key, temp_path w key)]
  /\ transcription_calls (run_log (pipeline w key tl st))
     = match download_file w (bucket_name w) key (temp_path w key) with
       | Downloaded data => [(data, "whisper-1", "text")]
       | DownloadFailed _ _ => []
       end.
Proof. destruct st as [files tfp]. exec; finish. Qed.

(** X9. Every spinner the pipeline shows is taken down before the run
    ends, whether the stages succeed or raise. *)
Theorem spinners_taken_down (w : World) (key tl : string) (st : state) :
  spinner_depth (run_log (pipeline w key tl st)) 0 = Some 0%nat.
Proof. destruct st as [files tfp]. exec; finish. Qed.

(** X10. When [os.open] and [os.remove] do not raise, the pipeline
    leaves the files as they were, except that nothing is left at the
    temporary path: a file that was already there is deleted as well,
    even when the download raised. *)
Theorem pipeline_restores_files (w : World) (key tl : string) (st : state) :
  os_open_error w (temp_path w key) = None ->
  os_remove_error w (temp_path w key) = None ->
  fs (run_st (pipeline w key tl st)) = delete (temp_path w key) (fs st).
Proof.
  intros Hopen Hremove. destruct st as [files tfp].
  pose proof (temp_path_truthy w key) as Htruthy. exec; simpl.
  all: rewrite ?delete_insert_eq; try done.
  all: by rewrite delete_id.
Qed.

Lemma pipeline_restores_files_witness :
  fs (run_st (pipeline world_download_fails "c.mp3" "French" stale_file))
  = delete (temp_path world_download_fails "c.mp3") (fs stale_file).
Proof.
  apply (pipeline_restores_files world_download_fails "c.mp3" "French"
           stale_file); reflexivity.
Defined.

(** X11. When the download succeeds and [os.open] or [os.remove] then
    raises [e], the downloaded audio stays at the temporary path, and
    after a failing [os.open] the removal is not attempted.  When the
    class of [e] derives from [Exception] one warning carries its text;
    otherwise no warning is shown and the pipeline raises [e]. *)
Theorem failed_removal_keeps_audio
    (w : World) (key tl : string) (st : state) (data : bytes) (e : exn) :
  let p := temp_path w key in
  download_file w (bucket_name w) key p = Downloaded data ->
  os_open_error w p = Some e
  \/ (os_open_error w p = None /\ os_remove_error w p = Some e) ->
  fs (run_st (pipeline w key tl st)) !! p = Some data
  /\ warnings (run_log (pipeline w key tl st))
     = (if is_Exception e
        then ["Could not remove temporary file: " ++ exn_str e]
        else [])
  /\ (is_Exception e = false -> run_val (pipeline w key tl st) = inl e)
  /\ (os_open_error w p = Some e ->
      removals (run_log (pipeline w key tl st)) = []).
Proof.
  intros p Hdl Herr. subst p. destruct st as [files tfp].
  pose proof (temp_path_truthy w key) as Htruthy.
  destruct Herr as [Hopen | [Hopen Hremove]]; exec; finish.
Qed.

(** A busy file cannot be removed: the audio stays and one warning is
    shown. *)
Lemma failed_removal_keeps_audio_witness :
  fs (run_st (pipeline world_remove_fails "c.mp3" "French" no_files))
    !! temp_path world_remove_fails "c.mp3" = Some sample_audio
  /\ warnings (run_log (pipeline world_remove_fails "c.mp3" "French" no_files))
     = ["Could not remove temporary file: " ++ exn_str busy].
Proof.
  pose proof (failed_removal_keeps_audio world_remove_fails "c.mp3" "French"
                no_files sample_audio busy eq_refl
                (or_intror (conj eq_refl eq_refl))) as (Hfs & Hw & _).
  split; [exact Hfs | exact Hw].
Defined.

(** A key the lister keeps is not the empty string. *)
Lemma audio_key_truthy key : is_audio_key key = true -> Py.truthy key = true.
Proof.
  intros (stem & suffix & Hin & Hlower)%endswith_any_spec.
  destruct key; [|done]. simpl in Hlower, Hin.
  destruct stem; [|done]. rewrite append_nil_l in Hlower. subst suffix.
  repeat (destruct Hin as [Hin|Hin]; [done|]). done.
Qed.

Lemma listed_key_truthy response i key :
  collect_audio (get_Contents response []) [] !! i = Some key ->
  Py.truthy key = true.
Proof.
  rewrite collect_audio_filter. simpl.
  intros Hin%list_elem_of_lookup_2%list_elem_of_In%filter_In.
  apply audio_key_truthy, Hin.
Qed.


(** X13. [translate_text] returns the first choice of the answer and
    ignores the others; an answer without choice raises [IndexError],
    an exception of the service is raised unchanged, and the state is
    never changed. *)
Theorem translate_text_result
    (w : World) (text target : string) (st : state) :
  run_st (translate_text w text target st) = st
  /\ run_val (translate_text w text target st)
     = match chat_completion w (translate_messages text target) with
       | inl e => inl e
       | inr [] => inl no_choice
       | inr (first :: _) => inr first
       end.
Proof. destruct st as [files tfp]. exec; finish. Qed.

(** X14. For every entry of the language box, an exception of the
    stages is one a service raised, or the [IndexError] of a chat answer
    without choice: the lookup in [languages] and the reading of the
    downloaded file never raise. *)
Theorem stage_errors_have_a_cause
    (w : World) (key : string) (c : LanguageChoice) (st : state) (e : exn) :
  run_val (stages w key (selected_language c) st) = inl e ->
  service_raises w key (selected_language c) e
  \/ (e = no_choice
      /\ exists data transcript,
           download_file w (bucket_name w) key (temp_path w key)
           = Downloaded data
           /\ audio_transcribe w data = inr transcript
           /\ chat_completion w
                (translate_messages transcript (selected_language c))
              = inr []).
Proof.
  destruct st as [files tfp].
  pose proof (stages_page w key (selected_language c) files tfp) as Hpage.
  cbv zeta in Hpage.
  destruct (download_file w (bucket_name w) key (temp_path w key))
    as [data|e' partial] eqn:Hdl.
  2:{ destruct Hpage as [-> _]. intros [= <-]. left. by econstructor 1. }
  destruct (audio_transcribe w data) as [e'|transcript] eqn:Htr.
  { destruct Hpage as [-> _]. intros [= <-]. left. by econstructor 2. }
  destruct c; simpl in Hpage;
    try (destruct Hpage as [-> _]; discriminate).
  all: destruct Hpage as [_ Hchat].
  all: match type of Hchat with
       | context [chat_completion ?w' ?m] =>
           destruct (chat_completion w' m) as [e'|[|first rest]] eqn:Hc
       end.
  all: destruct Hchat as [-> _]; intros [= <-].
  all: try (left; by econstructor 3).
  all: right; split; [done|]; by exists data, transcript.
Qed.

Lemma stage_errors_have_a_cause_witness :
  service_raises world_translate_fails "c.mp3" (selected_language French)
    rate_limit
  \/ (rate_limit = no_choice
      /\ exists data transcript,
           download_file world_translate_fails
             (bucket_name world_translate_fails) "c.mp3"
             (temp_path world_translate_fails "c.mp3") = Downloaded data
           /\ audio_transcribe world_translate_fails data = inr transcript
           /\ chat_completion world_translate_fails
                (translate_messages transcript (selected_language French))
              = inr []).
Proof.
  apply (stage_errors_have_a_cause world_translate_fails "c.mp3" French
           no_files rate_limit).
  reflexivity.
Defined.

(** X15. When the chat answer carries no choice, the pipeline reports
    the [IndexError]: the transcript is on the page, no translation is
    displayed and nothing is offered for download. *)
Theorem empty_answer_reported
    (w : World) (key tl name : string) (data : bytes) (transcript : string)
    (st : state) :
  dict_lookup languages tl = Some (Some name) ->
  download_file w (bucket_name w) key (temp_path w key) = Downloaded data ->
  audio_transcribe w data = inr transcript ->
  chat_completion w (translate_messages transcript name) = inr [] ->
  error_messages (run_log (pipeline w key tl st))
  = ["An error occurred: list index out of range"]
  /\ displayed (run_log (pipeline w key tl st)) = [transcript]
  /\ download_offers (run_log (pipeline w key tl st)) = [].
Proof.
  intros Hname Hdl Htr Hchat.
  destruct (languages_named _ _ Hname) as [_ Htruthy].
  destruct (pipeline_page w key tl st) as (_ & -> & _ & -> & ->).
  pose proof (stages_page w key tl (fs st) None) as Hpage. cbv zeta in Hpage.
  rewrite Hdl, Htr, Hname, Htruthy, Hchat in Hpage.
  by destruct Hpage as (_ & -> & -> & ->).
Qed.

Lemma empty_answer_reported_witness :
  error_messages (run_log (pipeline world_no_choice "c.mp3" "French" no_files))
  = ["An error occurred: list index out of range"]
  /\ displayed (run_log (pipeline world_no_choice "c.mp3" "French" no_files))
     = ["Bonjour"]
  /\ download_offers
       (run_log (pipeline world_no_choice "c.mp3" "French" no_files)) = [].
Proof.
  apply (empty_answer_reported world_no_choice "c.mp3" "French" "French"
           sample_audio "Bonjour" no_files); reflexivity.
Defined.

(** ** The script around the pipeline *)

(** X16. When the listing succeeds, a file of the list is selected and
    the button is pressed, the script runs the pipeline for that file
    and the chosen language and ends as the pipeline ends: it leaves the
    state of the pipeline, and its page shows the selection followed by
    what the pipeline shows.  No listed file fails the test of the
    selection. *)
Theorem script_runs_pipeline
    (w : World) (u : UserInput) (st : state) (response : list_response)
    (key : string) :
  list_objects_v2 w (bucket_name w) = inr response ->
  collect_audio (get_Contents response []) [] !! file_index u = Some key ->
  button_pressed u = true ->
  let page := run_log (script w u st) in
  let p := pipeline w key (selected_language (language u)) st in
  run_val (script w u st) = run_val p
  /\ run_st (script w u st) = run_st p
  /\ displayed page
     = ("Selected file: **" ++ key ++ "**") :: displayed (run_log p)
  /\ error_messages page = error_messages (run_log p)
  /\ warnings page = warnings (run_log p)
  /\ download_offers page = download_offers (run_log p)
  /\ remote_calls page
     = EvListObjects (bucket_name w) :: remote_calls (run_log p).
Proof.
  intros Hlist Hkey Hpress. cbv zeta.
  pose proof (listed_key_truthy _ _ _ Hkey) as Htruthy.
  destruct st as [files tfp]. run_page.
  rewrite Hlist. run_page. rewrite Hkey, Htruthy, Hpress.
  destruct (pipeline w key _ _) as [st1 log1 [e|[]]]; run_page.
  all: split; [done|]; split; [done|].
  all: unfold displayed, error_messages, warnings, download_offers,
         remote_calls.
  all: simpl; rewrite ?flat_map_app, ?List.filter_app; simpl.
  all: by rewrite ?app_nil_r.
Qed.

Lemma script_runs_pipeline_witness :
  run_val (script world_ok (press 1 French) no_files)
  = run_val (pipeline world_ok "c.mp3" "French" no_files)
  /\ run_st (script world_ok (press 1 French) no_files)
     = run_st (pipeline world_ok "c.mp3" "French" no_files).
Proof.
  pose proof (script_runs_pipeline world_ok (press 1 French) no_files
                sample_listing "c.mp3" eq_refl eq_refl eq_refl)
    as (Hval & Hst & _).
  split; [exact Hval | exact Hst].
Defined.



(** What the pipeline raises is not an [Exception]. *)
Lemma pipeline_lets_through w key tl st e :
  run_val (pipeline w key tl st) = inl e -> is_Exception e = false.
Proof.
  destruct (pipeline_page w key tl st) as (-> & _).
  destruct (run_val (cleanup w _)) as [e'|] eqn:Hfinal.
  - intros [= ->]. by apply cleanup_lets_through in Hfinal.
  - destruct (run_val (stages w key tl _)) as [e'|]; [|done].
    destruct (is_Exception e') eqn:Hclass; [done|]. by intros [= <-].
Qed.

(** X18. An exception that leaves the script is the one the listing
    raised, or its class does not derive from [Exception]: every
    [Exception] raised by the download, the transcription, the chat
    request or the removal of the file stays inside the pipeline. *)
Theorem script_raises_only_listing
    (w : World) (u : UserInput) (st : state) (e : exn) :
  run_val (script w u st) = inl e ->
  list_objects_v2 w (bucket_name w) = inl e \/ is_Exception e = false.
Proof.
  destruct st as [files tfp]. run_page.
  destruct (list_objects_v2 w (bucket_name w)) as [e'|response]; run_page;
    [intros [= ->]; by left|].
  destruct (_ !! file_index u) as [key|]; [|by run_page].
  destruct (Py.truthy key); [|by run_page]. run_page.
  destruct (button_pressed u); [|by run_page].
  pose proof (pipeline_lets_through w key (selected_language (language u))
                (State files tfp) e) as Hthrough.
  destruct (pipeline w key _ _) as [st1 log1 [e'|[]]]; run_page; [|done].
  intros [= ->]. right. by apply Hthrough.
Qed.

(** A transcription interrupted from the keyboard leaves the script. *)
Lemma script_raises_only_listing_witness :
  list_objects_v2 world_interrupted (bucket_name world_interrupted)
  = inl interrupt
  \/ is_Exception interrupt = false.
Proof.
  apply (script_raises_only_listing world_interrupted (press 1 French)
           no_files interrupt).
  reflexivity.
Defined.

(** X19. For every entry of the language box, the downloads offered by
    a run have different file names: the transcript and its translation
    are never offered under one name. *)
Theorem offered_names_differ
    (w : World) (key : string) (c : LanguageChoice) (st : state) :
  NoDup (map fst
           (download_offers
              (run_log (pipeline w key (selected_language c) st)))).
Proof.
  destruct (pipeline_page w key (selected_language c) st)
    as (_ & _ & _ & -> & _).
  pose proof (stages_page w key (selected_language c) (fs st) None) as Hpage.
  cbv zeta in Hpage.
  destruct (download_file w (bucket_name w) key (temp_path w key))
    as [data|e partial]; [|destruct Hpage as (_ & _ & _ & ->); constructor].
  destruct (audio_transcribe w data) as [e|transcript];
    [destruct Hpage as (_ & _ & _ & ->); constructor|].
  destruct c; simpl in Hpage;
    try (destruct Hpage as (_ & _ & _ & ->); repeat constructor;
         by intros ?%elem_of_nil).
  all: destruct Hpage as [_ Hchat].
  all: match type of Hchat with
       | context [chat_completion ?w' ?m] =>
           destruct (chat_completion w' m) as [e|[|first rest]]
       end.
  all: destruct Hchat as (_ & _ & ->); simpl; repeat constructor.
  all: try by intros ?%elem_of_nil.
  all: intros Heq%list_elem_of_singleton.
  all: by apply (inj (String.append key)) in Heq.
Qed.
